(** * Student feedback system: similarity scoring, rewards, history and alerts

    A shallow embedding of [feedback_system.py].  Python floats are IEEE
    binary64 numbers and are modelled by Rocq's primitive floats, so that
    every threshold comparison of the program ([>=], [<], [>]) is the very
    comparison the interpreter performs, NaN and infinities included.
    Strings are [String.string] (byte strings; [str.lower] acts on the ASCII
    letters), dictionaries whose iteration order matters are association
    lists in insertion order, exceptions are an explicit [result] type, and
    the two mutable lists of a [FeedbackGenerator] are threaded as explicit
    state.

    The sentence-embedding model and scikit-learn's [cosine_similarity] are
    collaborators of the program and enter the model as parameters; a
    binary64 rendering of the cosine is given for running the model on
    concrete embeddings.  Logging has no effect on results and is left out.
    The source reads the clock several times during one call; the model
    takes one reading per call. *)

From Stdlib Require Import List String Ascii ZArith Bool Lia Floats Sorting.Sorted.
From Stdlib Require Uint63 DecimalString.
Import ListNotations.
Set Warnings "-inexact-float".

Open Scope string_scope.

(** ** Python runtime fragments *)

(** Exceptions the modelled code can meet. *)
Inductive exn : Type :=
| ValueError (msg : string)
| IndexError (msg : string)
| KeyError (msg : string)
| RuntimeError (msg : string).

(** The outcome of a call: a value, or a raised exception. *)
Inductive result (A : Type) : Type :=
| Ok (a : A)
| Raise (e : exn).
Arguments Ok {A} a.
Arguments Raise {A} e.

Definition bind {A B : Type} (m : result A) (k : A -> result B) : result B :=
  match m with
  | Ok a => k a
  | Raise e => Raise e
  end.

Notation "x <- m ;; k" := (bind m (fun x => k))
  (at level 61, m at next level, right associativity).
Notation "' p <- m ;; k" := (bind m (fun p => k))
  (at level 61, p pattern, m at next level, right associativity).

(** [try: body except Exception: handler]. *)
Definition try_except {A : Type} (body : result A) (handler : exn -> result A)
  : result A :=
  match body with
  | Ok a => Ok a
  | Raise e => handler e
  end.

(** Python's comparison operators on floats, with the operands in the order
    the source writes them. *)
Definition py_ge (a b : float) : bool := (b <=? a)%float.
Definition py_gt (a b : float) : bool := (b <? a)%float.
Definition py_lt (a b : float) : bool := (a <? b)%float.

(** [str.lower()] on ASCII text: the letters [A]..[Z] move to [a]..[z], every
    other character stays. *)
Definition ascii_lower (c : ascii) : ascii :=
  let n := nat_of_ascii c in
  if (Nat.leb 65 n && Nat.leb n 90)%bool then ascii_of_nat (n + 32) else c.

Fixpoint lower (s : string) : string :=
  match s with
  | EmptyString => EmptyString
  | String c s' => String (ascii_lower c) (lower s')
  end.

(** [sep.join(words)]. *)
Definition join (sep : string) (words : list string) : string :=
  String.concat sep words.

(** [d.get(key, {})] on a dictionary kept as an association list in insertion
    order: the first binding of [key], or the empty dictionary. *)
Fixpoint dict_get {V : Type} (d : list (string * list V)) (key : string)
  : list V :=
  match d with
  | [] => []
  | (k, v) :: d' => if String.eqb k key then v else dict_get d' key
  end.

(** [l[-n:]]: the last [n] elements, or all of [l] when it is shorter. *)
Definition last_n {A : Type} (n : nat) (l : list A) : list A :=
  skipn (List.length l - n) l.

(** [l[i]] for a non-negative index. *)
Definition index {A : Type} (l : list A) (i : nat) : result A :=
  match nth_error l i with
  | Some a => Ok a
  | None => Raise (IndexError "list index out of range")
  end.

(** [l[-1]]. *)
Definition index_last {A : Type} (l : list A) : result A :=
  match rev l with
  | a :: _ => Ok a
  | [] => Raise (IndexError "list index out of range")
  end.

(** ** numpy fragments *)

Definition float_of_nat (n : nat) : float :=
  PrimFloat.of_uint63 (Uint63.of_Z (Z.of_nat n)).

(** [np.mean]: the sum divided by the count (NaN on an empty list, which
    numpy answers with a warning and not with an exception).  numpy adds in
    blocks; the order of the additions is not modelled. *)
Definition np_sum (l : list float) : float :=
  fold_left (fun acc x => (acc + x)%float) l 0%float.

Definition np_mean (l : list float) : float :=
  (np_sum l / float_of_nat (List.length l))%float.

(** numpy's order on floats: the IEEE order, with NaN placed after every
    number.  [np.max] and [np.argsort] both follow it. *)
Definition np_lt (a b : float) : bool :=
  ((a <? b)%float || (negb (is_nan a) && is_nan b))%bool.

Definition np_le (a b : float) : bool :=
  ((a <=? b)%float || is_nan b)%bool.

Definition np_maximum (a b : float) : float :=
  if np_lt a b then b else a.

(** [np.max]: raises [ValueError] on an empty array, NaN as soon as one
    entry is NaN. *)
Definition np_max (l : list float) : result float :=
  match l with
  | [] => Raise (ValueError "zero-size array to reduction operation maximum which has no identity")
  | x :: l' => Ok (fold_left np_maximum l' x)
  end.

(** [np.argsort]: the indices of [l] in ascending order of their values,
    NaN last.  numpy does not fix the order among equal values; the model
    inserts the entries one by one and leaves equal values in increasing
    order of their indices. *)
Fixpoint insert_by_value (x : float * nat) (l : list (float * nat))
  : list (float * nat) :=
  match l with
  | [] => [x]
  | y :: l' => if np_lt (fst x) (fst y) then x :: y :: l'
               else y :: insert_by_value x l'
  end.

Definition sort_by_value (l : list (float * nat)) : list (float * nat) :=
  fold_left (fun acc x => insert_by_value x acc) l [].

Definition np_argsort (l : list float) : list nat :=
  map snd (sort_by_value (combine l (seq 0 (List.length l)))).

(** ** Data model *)

Inductive RewardType : Type := BRONZE | SILVER | GOLD | PLATINUM.

Module RewardType_.
Definition value (r : RewardType) : string :=
  match r with
  | BRONZE => "bronze"
  | SILVER => "silver"
  | GOLD => "gold"
  | PLATINUM => "platinum"
  end.

Definition eqb (a b : RewardType) : bool :=
  match a, b with
  | BRONZE, BRONZE | SILVER, SILVER | GOLD, GOLD | PLATINUM, PLATINUM => true
  | _, _ => false
  end.

(** Iterating over the enumeration follows the order of declaration. *)
Definition members : list RewardType := [BRONZE; SILVER; GOLD; PLATINUM].
End RewardType_.

(** [datetime.datetime] values, as microseconds on the time line. *)
Definition datetime : Type := Z.

Definition timedelta_days (d : Z) : Z := (d * 86400 * 1000000)%Z.

Module StudentResponse.
Record t : Type := mk {
  student_id : string;
  question_id : string;
  response_text : string;
  subject : string;
  timestamp : datetime;
  expected_keywords : option (list string)
}.
End StudentResponse.

Module Feedback.
Record t : Type := mk {
  response_id : string;
  student_id : string;
  similarity_score : float;
  reward_type : RewardType;
  feedback_text : string;
  strengths : list string;
  improvement_areas : list string;
  personalized_tips : list string;
  points_earned : Z;
  timestamp : datetime
}.
End Feedback.

Module EducatorAlert.
Record t : Type := mk {
  alert_id : string;
  student_id : string;
  alert_type : string;
  severity : string;
  description : string;
  timestamp : datetime;
  action_required : bool
}.
End EducatorAlert.

(** The two lists a [FeedbackGenerator] owns and mutates. *)
Record FeedbackGenerator : Type := mkGenerator {
  feedback_history : list Feedback.t;
  educator_alerts : list EducatorAlert.t
}.

(** [__init__]: both lists start empty. *)
Definition init : FeedbackGenerator :=
  {| feedback_history := []; educator_alerts := [] |}.

(** ** Static tables of the generator *)

(** [_load_reference_answers]: subject, then topic, then reference sentences,
    in the order the source lists them. *)
Definition _load_reference_answers : list (string * list (string * list string)) :=
  [ ("mathematics",
      [ ("algebra",
          [ "To solve linear equations, isolate the variable by performing inverse operations on both sides";
            "The quadratic formula is x = (-b ± √(b²-4ac)) / 2a for equations ax² + bx + c = 0";
            "Functions represent relationships between input and output values" ]);
        ("geometry",
          [ "The Pythagorean theorem states that a² + b² = c² for right triangles";
            "Area of a circle is π × radius squared";
            "Parallel lines never intersect and have the same slope" ]) ]);
    ("science",
      [ ("physics",
          [ "Newton's first law states that objects in motion stay in motion unless acted upon by force";
            "Energy cannot be created or destroyed, only transformed from one form to another";
            "Force equals mass times acceleration (F = ma)" ]);
        ("chemistry",
          [ "Atoms consist of protons, neutrons, and electrons";
            "Chemical reactions involve breaking and forming bonds between atoms";
            "The periodic table organizes elements by atomic number" ]) ]);
    ("english",
      [ ("literature",
          [ "Theme is the central message or meaning of a literary work";
            "Character development shows how characters change throughout a story";
            "Symbolism uses objects or actions to represent deeper meanings" ]);
        ("grammar",
          [ "Subjects perform the action in a sentence while objects receive it";
            "Proper punctuation helps clarify meaning and structure";
            "Active voice makes writing more direct and engaging" ]) ]) ].

Record Criteria : Type := mkCriteria {
  min_score : float;
  points : Z;
  description : string
}.

(** [_setup_reward_criteria]: a dictionary, iterated in insertion order. *)
Definition _setup_reward_criteria : list (RewardType * Criteria) :=
  [ (PLATINUM, mkCriteria 0.9%float 100 "Exceptional understanding!");
    (GOLD, mkCriteria 0.8%float 75 "Excellent work!");
    (SILVER, mkCriteria 0.65%float 50 "Good effort!");
    (BRONZE, mkCriteria 0.4%float 25 "Keep trying!") ].

Definition reference_answers := _load_reference_answers.
Definition reward_criteria := _setup_reward_criteria.

(** ** The reward classifier *)

(** The [for] loop of [determine_reward] over the items of a criteria
    dictionary: the first entry whose [min_score] the score reaches. *)
Fixpoint first_reached (items : list (RewardType * Criteria)) (similarity_score : float)
  : option (RewardType * Z) :=
  match items with
  | [] => None
  | (reward_type, criteria) :: items' =>
      if py_ge similarity_score (min_score criteria)
      then Some (reward_type, points criteria)
      else first_reached items' similarity_score
  end.

Definition determine_reward (similarity_score : float) : RewardType * Z :=
  match first_reached reward_criteria similarity_score with
  | Some reward => reward
  | None => (BRONZE, 10%Z)
  end.

(** [self.reward_criteria[reward_type]]. *)
Fixpoint criteria_of (items : list (RewardType * Criteria)) (reward_type : RewardType)
  : result Criteria :=
  match items with
  | [] => Raise (KeyError (RewardType_.value reward_type))
  | (k, criteria) :: items' =>
      if RewardType_.eqb k reward_type then Ok criteria
      else criteria_of items' reward_type
  end.

(** ** The similarity scorer *)

(** The loop [for topic_refs in subject_refs.values(): all_refs.extend(topic_refs)]. *)
Definition flatten_refs (subject_refs : list (string * list string)) : list string :=
  fold_left (fun all_refs topic => (all_refs ++ snd topic)%list) subject_refs [].

(** [if expected_keywords: all_refs.append(" ".join(expected_keywords))]:
    [None] and the empty list are both falsy. *)
Definition add_keywords (all_refs : list string) (expected_keywords : option (list string))
  : list string :=
  match expected_keywords with
  | Some (k :: ks) => (all_refs ++ [join " " (k :: ks)])%list
  | _ => all_refs
  end.

(** [[all_refs[i] for i in top_indices if similarities[i] > 0.3]]. *)
Fixpoint select_matches (all_refs : list string) (similarities : list float)
  (top_indices : list nat) : result (list string) :=
  match top_indices with
  | [] => Ok []
  | i :: rest =>
      s <- index similarities i ;;
      if py_gt s 0.3%float
      then (ref <- index all_refs i ;;
            matches <- select_matches all_refs similarities rest ;;
            Ok (ref :: matches))
      else select_matches all_refs similarities rest
  end.

(** [np.argsort(similarities)[-3:][::-1]]. *)
Definition top_three (similarities : list float) : list nat :=
  rev (last_n 3 (np_argsort similarities)).

Section Generator.

(** The embedding model and scikit-learn are collaborators of the program:
    [encode] is [self.model.encode] on a list of texts (one vector per text
    when it succeeds), [cosine_similarity] is
    [sklearn.metrics.pairwise.cosine_similarity] (one row per vector of the
    first argument).  Either may raise.  [strftime] and [isoformat] render a
    time stamp. *)
Variable encode : list string -> result (list (list float)).
Variable cosine_similarity :
  list (list float) -> list (list float) -> result (list (list float)).
Variable strftime : datetime -> string.
Variable isoformat : datetime -> string.

(** Lines 136 to 140: the embedding and similarity step. *)
Definition similarity_step (response_text : string) (all_refs : list string)
  : result (list float) :=
  student_embedding <- encode [response_text] ;;
  reference_embeddings <- encode all_refs ;;
  K <- cosine_similarity student_embedding reference_embeddings ;;
  index K 0.

(** All the reference strings a response is compared with. *)
Definition all_refs_of (student_response : StudentResponse.t) : list string :=
  add_keywords
    (flatten_refs
       (dict_get reference_answers (lower (StudentResponse.subject student_response))))
    (StudentResponse.expected_keywords student_response).

(** The body of the [try] block of [analyze_response]. *)
Definition analyze_response_body (student_response : StudentResponse.t)
  : result (float * list string) :=
  let subject_refs :=
    dict_get reference_answers (lower (StudentResponse.subject student_response)) in
  match subject_refs with
  | [] => Ok (0.5%float, [])
  | _ :: _ =>
      let all_refs :=
        add_keywords (flatten_refs subject_refs)
          (StudentResponse.expected_keywords student_response) in
      similarities <-
        similarity_step (StudentResponse.response_text student_response) all_refs ;;
      max_similarity <- np_max similarities ;;
      let top_indices := top_three similarities in
      best_matches <- select_matches all_refs similarities top_indices ;;
      Ok (max_similarity, best_matches)
  end.

(** [analyze_response]: the body under [except Exception], whose handler
    logs and returns [(0.0, [])]. *)
Definition analyze_response (student_response : StudentResponse.t)
  : result (float * list string) :=
  try_except (analyze_response_body student_response)
    (fun _ => Ok (0.0%float, [])).

(** ** The feedback composer *)

Record FeedbackData : Type := mkFeedbackData {
  fd_feedback_text : string;
  fd_strengths : list string;
  fd_improvement_areas : list string;
  fd_tips : list string;
  fd_reward_type : RewardType;
  fd_points : Z
}.

Definition band_strengths (similarity_score : float) : list string :=
  if py_ge similarity_score 0.8%float then
    [ "Demonstrates strong understanding of key concepts";
      "Uses appropriate terminology";
      "Provides clear explanations" ]
  else if py_ge similarity_score 0.6%float then
    [ "Shows good grasp of basic concepts";
      "Attempts to explain reasoning" ]
  else [ "Shows effort in attempting the question" ].

Definition band_improvement_areas (similarity_score : float) : list string :=
  if py_ge similarity_score 0.8%float then []
  else if py_ge similarity_score 0.6%float then
    [ "Could use more specific terminology";
      "Explanations could be more detailed" ]
  else
    [ "Needs to review fundamental concepts";
      "Requires more specific and detailed responses" ].

Definition band_tips (similarity_score : float) : list string :=
  if py_ge similarity_score 0.8%float then
    [ "Try to add more examples to strengthen your explanations";
      "Consider exploring advanced applications of these concepts" ]
  else if py_ge similarity_score 0.6%float then
    [ "Review key vocabulary for this topic";
      "Practice explaining concepts in your own words";
      "Try to include specific examples" ]
  else
    [ "Review the lesson materials again";
      "Ask your teacher for clarification on confusing topics";
      "Practice with similar problems";
      "Try to break down complex problems into smaller steps" ].

Definition band_sentence (similarity_score : float) : string :=
  if py_ge similarity_score 0.8%float then
    "You've shown excellent understanding of this topic. Your response demonstrates clear thinking and good use of relevant concepts."
  else if py_ge similarity_score 0.6%float then
    "You're on the right track! Your response shows good understanding, with room for more detail and precision."
  else
    "Keep working on this topic. Review the key concepts and try to be more specific in your explanations.".

Definition generate_personalized_feedback (student_response : StudentResponse.t)
  (similarity_score : float) (best_matches : list string) : result FeedbackData :=
  let strengths := band_strengths similarity_score in
  let improvement_areas := band_improvement_areas similarity_score in
  let tips := band_tips similarity_score in
  let '(reward_type, points) := determine_reward similarity_score in
  criteria <- criteria_of reward_criteria reward_type ;;
  let reward_desc := description criteria in
  let feedback_text := (reward_desc ++ " ") ++ band_sentence similarity_score in
  Ok {| fd_feedback_text := feedback_text;
        fd_strengths := strengths;
        fd_improvement_areas := improvement_areas;
        fd_tips := tips;
        fd_reward_type := reward_type;
        fd_points := points |}.

(** ** Recording a response: history and alerts *)

(** [[f.similarity_score for f in history[-n:] if f.student_id == student_id]]. *)
Definition recent_scores_of (n : nat) (history : list Feedback.t) (student_id : string)
  : list float :=
  map Feedback.similarity_score
    (filter (fun f => String.eqb (Feedback.student_id f) student_id)
       (last_n n history)).

Definition low_performance_alert (now : datetime) (student_response : StudentResponse.t)
  : EducatorAlert.t :=
  {| EducatorAlert.alert_id := "alert_" ++ strftime now;
     EducatorAlert.student_id := StudentResponse.student_id student_response;
     EducatorAlert.alert_type := "low_performance";
     EducatorAlert.severity := "high";
     EducatorAlert.description :=
       "Student showing very low understanding in "
       ++ StudentResponse.subject student_response;
     EducatorAlert.timestamp := now;
     EducatorAlert.action_required := true |}.

Definition consistent_struggle_alert (now : datetime) (student_response : StudentResponse.t)
  : EducatorAlert.t :=
  {| EducatorAlert.alert_id := "alert_" ++ strftime now ++ "_pattern";
     EducatorAlert.student_id := StudentResponse.student_id student_response;
     EducatorAlert.alert_type := "consistent_struggle";
     EducatorAlert.severity := "medium";
     EducatorAlert.description :=
       "Student showing consistent difficulties across multiple responses";
     EducatorAlert.timestamp := now;
     EducatorAlert.action_required := true |}.

(** The alerts one call of [_check_for_educator_alerts] collects before it
    extends [self.educator_alerts] with them. *)
Definition new_alerts (now : datetime) (student_response : StudentResponse.t)
  (similarity_score : float) (history : list Feedback.t) : list EducatorAlert.t :=
  let alerts := [] in
  let alerts :=
    if py_lt similarity_score 0.3%float
    then (alerts ++ [low_performance_alert now student_response])%list
    else alerts in
  let recent_scores :=
    recent_scores_of 5 history (StudentResponse.student_id student_response) in
  if (Nat.leb 3 (List.length recent_scores)
      && forallb (fun score => py_lt score 0.5%float) recent_scores)%bool
  then (alerts ++ [consistent_struggle_alert now student_response])%list
  else alerts.

Definition _check_for_educator_alerts (now : datetime)
  (student_response : StudentResponse.t) (similarity_score : float)
  (self : FeedbackGenerator) : FeedbackGenerator :=
  {| feedback_history := feedback_history self;
     educator_alerts :=
       (educator_alerts self
        ++ new_alerts now student_response similarity_score (feedback_history self))%list |}.

(** [generate_feedback]: score, compose, append to the history, check the
    alert rules; an exception is logged and raised again.  [now] stands for
    every clock reading of the call. *)
Definition generate_feedback (now : datetime) (student_response : StudentResponse.t)
  (self : FeedbackGenerator) : result (Feedback.t * FeedbackGenerator) :=
  try_except
    ('(similarity_score, best_matches) <- analyze_response student_response ;;
     feedback_data <-
       generate_personalized_feedback student_response similarity_score best_matches ;;
     let feedback :=
       {| Feedback.response_id := "resp_" ++ strftime now;
          Feedback.student_id := StudentResponse.student_id student_response;
          Feedback.similarity_score := similarity_score;
          Feedback.reward_type := fd_reward_type feedback_data;
          Feedback.feedback_text := fd_feedback_text feedback_data;
          Feedback.strengths := fd_strengths feedback_data;
          Feedback.improvement_areas := fd_improvement_areas feedback_data;
          Feedback.personalized_tips := fd_tips feedback_data;
          Feedback.points_earned := fd_points feedback_data;
          Feedback.timestamp := now |} in
     let self :=
       {| feedback_history := (feedback_history self ++ [feedback])%list;
          educator_alerts := educator_alerts self |} in
     let self := _check_for_educator_alerts now student_response similarity_score self in
     Ok (feedback, self))
    (fun e => Raise e).

(** A script of responses fed to [generate_feedback] one after the other,
    each with its own clock reading. *)
Fixpoint run_script (script : list (datetime * StudentResponse.t))
  (self : FeedbackGenerator) : result FeedbackGenerator :=
  match script with
  | [] => Ok self
  | (now, student_response) :: script' =>
      '(_, self') <- generate_feedback now student_response self ;;
      run_script script' self'
  end.

(** The generator states a program can reach: the fresh generator, and
    whatever a successful [generate_feedback] leaves behind.  Reading the
    progress or the dashboard changes nothing. *)
Inductive reachable : FeedbackGenerator -> Prop :=
| reachable_init : reachable init
| reachable_record (now : datetime) (student_response : StudentResponse.t)
    (self self' : FeedbackGenerator) (feedback : Feedback.t) :
    reachable self ->
    generate_feedback now student_response self = Ok (feedback, self') ->
    reachable self'.

(** ** Progress and dashboard *)

Record ProgressReport : Type := mkProgressReport {
  pr_student_id : string;
  pr_total_responses : nat;
  pr_average_score : float;
  pr_latest_score : float;
  pr_total_points : Z;
  pr_reward_distribution : list (string * nat);
  pr_recent_improvement : float;
  pr_last_updated : string
}.

(** The dictionary [get_student_progress] returns: the one-key ["error"]
    dictionary, or the report. *)
Inductive Progress : Type :=
| ProgressError (error : string)
| ProgressOk (report : ProgressReport).

Definition get_student_progress (student_id : string) (self : FeedbackGenerator)
  : result Progress :=
  let student_feedback :=
    filter (fun f => String.eqb (Feedback.student_id f) student_id)
      (feedback_history self) in
  match student_feedback with
  | [] => Ok (ProgressError "No feedback found for this student")
  | _ :: _ =>
      let scores := map Feedback.similarity_score student_feedback in
      let total_points :=
        fold_left (fun acc f => (acc + Feedback.points_earned f)%Z) student_feedback 0%Z in
      let reward_counts :=
        map (fun reward_type =>
               (RewardType_.value reward_type,
                List.length
                  (filter (fun f => RewardType_.eqb (Feedback.reward_type f) reward_type)
                     student_feedback)))
          RewardType_.members in
      latest <- index_last scores ;;
      earliest <- index scores 0 ;;
      newest <- index_last student_feedback ;;
      Ok (ProgressOk
            {| pr_student_id := student_id;
               pr_total_responses := List.length student_feedback;
               pr_average_score := np_mean scores;
               pr_latest_score := latest;
               pr_total_points := total_points;
               pr_reward_distribution := reward_counts;
               pr_recent_improvement :=
                 if Nat.ltb 1 (List.length scores) then (latest - earliest)%float
                 else 0%float;
               pr_last_updated := isoformat (Feedback.timestamp newest) |})
  end.

Record ClassOverview : Type := mkClassOverview {
  total_students : nat;
  total_responses : nat;
  class_average_score : float;
  students_needing_attention : nat
}.

Record Dashboard : Type := mkDashboard {
  class_overview : ClassOverview;
  recent_alerts : list EducatorAlert.t;
  struggling_students : list string;
  last_updated : string
}.

(** [get_educator_dashboard] reads the two lists and the clock and changes
    neither list.  [list(set(...))] is the student ids without repetition;
    Python fixes no order for it, the model keeps the order of [nodup]. *)
Definition get_educator_dashboard (now : datetime) (self : FeedbackGenerator)
  : Dashboard :=
  let all_students :=
    nodup string_dec (map Feedback.student_id (feedback_history self)) in
  let all_scores := map Feedback.similarity_score (feedback_history self) in
  let class_average :=
    match all_scores with
    | [] => 0%float
    | _ :: _ => np_mean all_scores
    end in
  let struggling_students :=
    filter
      (fun student_id =>
         let recent_scores := recent_scores_of 3 (feedback_history self) student_id in
         match recent_scores with
         | [] => false
         | _ :: _ => py_lt (np_mean recent_scores) 0.4%float
         end)
      all_students in
  let recent_alerts :=
    filter (fun alert => (now - timedelta_days 7 <? EducatorAlert.timestamp alert)%Z)
      (educator_alerts self) in
  {| class_overview :=
       {| total_students := List.length all_students;
          total_responses := List.length (feedback_history self);
          class_average_score := class_average;
          students_needing_attention := List.length struggling_students |};
     recent_alerts := recent_alerts;
     struggling_students := struggling_students;
     last_updated := isoformat now |}.

End Generator.

(** ** Concrete collaborators for running the model *)

(** A binary64 rendering of [sklearn.metrics.pairwise.cosine_similarity]:
    both arguments are checked (at least one row, finite entries, one common
    width), every row is divided by its Euclidean norm (a zero norm counts as
    one), and entry [(i, j)] is the dot product of row [i] of [X] and row [j]
    of [Y]. *)
Definition dot (u v : list float) : float :=
  fold_left (fun acc p => (acc + fst p * snd p)%float) (combine u v) 0%float.

Definition row_norm (u : list float) : float := PrimFloat.sqrt (dot u u).

Definition normalize_row (u : list float) : list float :=
  let n := row_norm u in
  let n := if (n =? 0)%float then 1%float else n in
  map (fun x => (x / n)%float) u.

Definition all_finite (X : list (list float)) : bool :=
  forallb (forallb is_finite) X.

Definition same_width (d : nat) (X : list (list float)) : bool :=
  forallb (fun row => Nat.eqb (List.length row) d) X.

Definition sklearn_cosine_similarity (X Y : list (list float))
  : result (list (list float)) :=
  match X, Y with
  | [], _ | _, [] => Raise (ValueError "Found array with 0 sample(s)")
  | x0 :: _, _ :: _ =>
      if negb (all_finite X && all_finite Y)
      then Raise (ValueError "Input contains NaN or infinity")
      else if negb (same_width (List.length x0) X && same_width (List.length x0) Y)
      then Raise (ValueError "Incompatible dimension for X and Y matrices")
      else Ok (map (fun x => map (fun y => dot (normalize_row x) (normalize_row y)) Y) X)
  end.

(** An embedding model given by the vector it assigns to each text. *)
Definition encode_with (embed : string -> list float) (texts : list string)
  : result (list (list float)) :=
  Ok (map embed texts).

(** An embedding model that is out of service. *)
Definition encode_down (texts : list string) : result (list (list float)) :=
  Raise (RuntimeError "model not available").

(** A clock rendering that prints the time stamp in decimal. *)
Definition strftime_decimal (t : datetime) : string :=
  DecimalString.NilZero.string_of_int (Z.to_int t).

(** The range the specification gives to similarity scores. *)
Definition in_unit_interval (s : float) : bool :=
  ((0 <=? s)%float && (s <=? 1)%float)%bool.

(** Lines 136 to 148 of [analyze_response]: the scoring of a response text
    against the reference strings [all_refs], once the subject has been
    found in the corpus. *)
Definition score_against (encode : list string -> result (list (list float)))
  (cosine_similarity : list (list float) -> list (list float) -> result (list (list float)))
  (response_text : string) (all_refs : list string) : result (float * list string) :=
  similarities <- similarity_step encode cosine_similarity response_text all_refs ;;
  max_similarity <- np_max similarities ;;
  best_matches <- select_matches all_refs similarities (top_three similarities) ;;
  Ok (max_similarity, best_matches).


(** [np.float32(0.3)], the float32 number nearest to 0.3, as a binary64
    number: 0.300000011920928955078125. *)
Definition float32_03 : float := 0x1.333334p-2%float.

(** Counting the alerts of one type. *)
Definition count_alerts (alert_type : string) (alerts : list EducatorAlert.t) : nat :=
  List.length (filter (fun a => String.eqb (EducatorAlert.alert_type a) alert_type) alerts).

(** Two strings that differ only in the case of ASCII letters: the same
    length, and at each position the same character or the two cases of one
    letter. *)
Definition same_letter (c d : ascii) : Prop :=
  c = d \/
  (exists n, 65 <= n <= 90 /\
     ((nat_of_ascii c = n /\ nat_of_ascii d = n + 32) \/
      (nat_of_ascii d = n /\ nat_of_ascii c = n + 32))).

Fixpoint differ_only_in_case (s t : string) : Prop :=
  match s, t with
  | EmptyString, EmptyString => True
  | String c s', String d t' => same_letter c d /\ differ_only_in_case s' t'
  | _, _ => False
  end.

(** [str.upper()] on UTF-8 text, as far as it is used here: the ASCII
    letters [a]..[z] move to [A]..[Z], and the letter U+017F (LATIN SMALL
    LETTER LONG S, the two bytes 197 and 191) moves to [S]; [str.lower()]
    leaves U+017F as it is, since it is a lower-case letter.  Every other
    character stays. *)
Definition ascii_upper (c : ascii) : ascii :=
  let n := nat_of_ascii c in
  if (Nat.leb 97 n && Nat.leb n 122)%bool then ascii_of_nat (n - 32) else c.

Fixpoint upper (s : string) : string :=
  match s with
  | EmptyString => EmptyString
  | String c s' =>
      match s' with
      | String d s'' =>
          if (Nat.eqb (nat_of_ascii c) 197 && Nat.eqb (nat_of_ascii d) 191)%bool
          then String "S" (upper s'')
          else String (ascii_upper c) (upper s')
      | EmptyString => String (ascii_upper c) EmptyString
      end
  end.

(** The five outcomes of the classifier, best first. *)
Definition reward_outcomes : list (RewardType * Z) :=
  [ (PLATINUM, 100%Z); (GOLD, 75%Z); (SILVER, 50%Z); (BRONZE, 25%Z); (BRONZE, 10%Z) ].

(** The response [r] with its subject replaced. *)
Definition with_subject (r : StudentResponse.t) (subject : string) : StudentResponse.t :=
  {| StudentResponse.student_id := StudentResponse.student_id r;
     StudentResponse.question_id := StudentResponse.question_id r;
     StudentResponse.response_text := StudentResponse.response_text r;
     StudentResponse.subject := subject;
     StudentResponse.timestamp := StudentResponse.timestamp r;
     StudentResponse.expected_keywords := StudentResponse.expected_keywords r |}.

(** The keys of the reference corpus. *)
Definition corpus_subjects : list string := map fst reference_answers.

(** Pairs of a similarity and its index, compared by similarity in numpy's
    order. *)
Definition by_value (p q : float * nat) : Prop := np_le (fst p) (fst q) = true.

(** The pairs (similarity, index) behind [top_three], best first. *)
Definition top_pairs (similarities : list float) : list (float * nat) :=
  rev (last_n 3 (sort_by_value (combine similarities (seq 0 (List.length similarities))))).

(** ** Example responses and embeddings *)

Definition response_low : StudentResponse.t :=
  {| StudentResponse.student_id := "student_002";
     StudentResponse.question_id := "science_001";
     StudentResponse.response_text := "Gravity pulls things down";
     StudentResponse.subject := "science";
     StudentResponse.timestamp := 0%Z;
     StudentResponse.expected_keywords := None |}.

Definition response_math : StudentResponse.t :=
  {| StudentResponse.student_id := "student_001";
     StudentResponse.question_id := "math_001";
     StudentResponse.response_text := "I subtract 5 from both sides";
     StudentResponse.subject := "mathematics";
     StudentResponse.timestamp := 0%Z;
     StudentResponse.expected_keywords := Some ["inverse"; "operations"] |}.

Definition response_unknown : StudentResponse.t :=
  with_subject response_low "History".

(** Two spellings of one subject that differ only in letter case: the
    first letter of the second is U+017F, whose upper case is [S]. *)
Definition response_science_upper : StudentResponse.t :=
  with_subject response_low "SCIENCE".

Definition response_science_long_s : StudentResponse.t :=
  with_subject response_low "ſcience".

(** Embeddings in the plane and in four dimensions with exact cosines. *)
Definition embed_low (text : string) : list float :=
  if String.eqb text "Gravity pulls things down"
  then [1; 0; 0; 0]%float else [1; 2; 2; 4]%float.


Definition embed_same (text : string) : list float := [1; 0]%float.

Definition embed_graded (text : string) : list float :=
  if String.eqb text "I subtract 5 from both sides" then [1; 0]%float
  else if String.eqb text "inverse operations" then [24; 7]%float
  else if String.prefix "To solve" text then [4; 3]%float
  else if String.prefix "Functions" text then [3; 4]%float
  else if String.prefix "Area" text then [7; 24]%float
  else [0; 1]%float.

Definition script_low : list (datetime * StudentResponse.t) :=
  [ (1%Z, response_low); (2%Z, response_low); (3%Z, response_low);
    (4%Z, response_low); (5%Z, response_low) ].

Definition graded_similarities : list float :=
  [0.8; 0; 0.6; 0; 0.28; 0; 0.96]%float.

Definition recorded_once : FeedbackGenerator :=
  match generate_feedback (encode_with embed_same) sklearn_cosine_similarity
          strftime_decimal 1%Z response_low init with
  | Ok (_, self) => self
  | Raise _ => init
  end.

(** ** The bands of the feedback composer *)

(** The five narratives [generate_personalized_feedback] can produce, from
    the best band down. *)
Definition narratives : list string :=
  [ "Exceptional understanding! You've shown excellent understanding of this topic. Your response demonstrates clear thinking and good use of relevant concepts.";
    "Excellent work! You've shown excellent understanding of this topic. Your response demonstrates clear thinking and good use of relevant concepts.";
    "Good effort! You're on the right track! Your response shows good understanding, with room for more detail and precision.";
    "Keep trying! You're on the right track! Your response shows good understanding, with room for more detail and precision.";
    "Keep trying! Keep working on this topic. Review the key concepts and try to be more specific in your explanations." ].

(** The position of a score among the thresholds 0.9, 0.8, 0.65 and 0.6. *)
Definition narrative_band (s : float) : nat :=
  if (0.9 <=? s)%float then 0
  else if (0.8 <=? s)%float then 1
  else if (0.65 <=? s)%float then 2
  else if (0.6 <=? s)%float then 3
  else 4.

(** ** Well-formed alerts *)

(** The two kinds of alert the rules build: a low-performance alert of high
    severity or a consistent-struggle alert of medium severity, each
    requiring action. *)
Definition well_formed_alert (alert : EducatorAlert.t) : Prop :=
  EducatorAlert.action_required alert = true /\
  ((EducatorAlert.alert_type alert = "low_performance" /\
    EducatorAlert.severity alert = "high") \/
   (EducatorAlert.alert_type alert = "consistent_struggle" /\
    EducatorAlert.severity alert = "medium")).

(** The records of one student, oldest first. *)
Definition records_of (student_id : string) (history : list Feedback.t)
  : list Feedback.t :=
  filter (fun f => String.eqb (Feedback.student_id f) student_id) history.

(** The state after the five low-scoring records of [script_low]. *)
Definition struggling_state : FeedbackGenerator :=
  match run_script (encode_with embed_low) sklearn_cosine_similarity
          strftime_decimal script_low init with
  | Ok self => self
  | Raise _ => init
  end.

(** ** Export: the data as JSON *)

(** The Python values [export_data] hands to [json.dump]. *)
#[local] Set Warnings "-register-all".
Inductive pyobj : Type :=
| PyNone
| PyBool (b : bool)
| PyInt (z : Z)
| PyFloat (x : float)
| PyStr (s : string)
| PyList (items : list pyobj)
| PyDict (items : list (string * pyobj))
| PyDatetime (t : datetime)
| PyEnum (member : RewardType).

(** [dataclasses.asdict]: the fields in the order of declaration. *)
Definition asdict_feedback (f : Feedback.t) : pyobj :=
  PyDict
    [ ("response_id", PyStr (Feedback.response_id f));
      ("student_id", PyStr (Feedback.student_id f));
      ("similarity_score", PyFloat (Feedback.similarity_score f));
      ("reward_type", PyEnum (Feedback.reward_type f));
      ("feedback_text", PyStr (Feedback.feedback_text f));
      ("strengths", PyList (map PyStr (Feedback.strengths f)));
      ("improvement_areas", PyList (map PyStr (Feedback.improvement_areas f)));
      ("personalized_tips", PyList (map PyStr (Feedback.personalized_tips f)));
      ("points_earned", PyInt (Feedback.points_earned f));
      ("timestamp", PyDatetime (Feedback.timestamp f)) ].

Definition asdict_alert (a : EducatorAlert.t) : pyobj :=
  PyDict
    [ ("alert_id", PyStr (EducatorAlert.alert_id a));
      ("student_id", PyStr (EducatorAlert.student_id a));
      ("alert_type", PyStr (EducatorAlert.alert_type a));
      ("severity", PyStr (EducatorAlert.severity a));
      ("description", PyStr (EducatorAlert.description a));
      ("timestamp", PyDatetime (EducatorAlert.timestamp a));
      ("action_required", PyBool (EducatorAlert.action_required a)) ].

(** The encoder of the standard [json] module, as far as raising goes (the
    text it writes is not modelled).  Numbers, strings, booleans and [None]
    are written as they are, lists and dictionaries item by item.  Any other
    object is noted in [markers] and handed to the [default] hook, and the
    hook's answer is encoded in its place; an object met again while it is
    noted raises [ValueError("Circular reference detected")].  Objects are
    told apart by value, which for the members of an enumeration is their
    identity.  The interpreter bounds the depth of the recursion. *)
Definition same_object (a b : pyobj) : bool :=
  match a, b with
  | PyDatetime t, PyDatetime u => Z.eqb t u
  | PyEnum m, PyEnum n => RewardType_.eqb m n
  | _, _ => false
  end.

Fixpoint encode_each (encode : pyobj -> result unit) (items : list pyobj)
  : result unit :=
  match items with
  | [] => Ok tt
  | o :: rest => _ <- encode o ;; encode_each encode rest
  end.

Fixpoint json_iterencode (default : pyobj -> pyobj) (depth : nat)
  (markers : list pyobj) (o : pyobj) : result unit :=
  match depth with
  | 0 => Raise (RuntimeError "maximum recursion depth exceeded")
  | S depth' =>
      match o with
      | PyNone | PyBool _ | PyInt _ | PyFloat _ | PyStr _ => Ok tt
      | PyList items => encode_each (json_iterencode default depth' markers) items
      | PyDict items =>
          encode_each (json_iterencode default depth' markers) (map snd items)
      | PyDatetime _ | PyEnum _ =>
          if existsb (same_object o) markers
          then Raise (ValueError "Circular reference detected")
          else json_iterencode default depth' (o :: markers) (default o)
      end
  end.

Definition recursion_limit : nat := 1000.

(** [json.dump(obj, f, default=default, indent=2)]. *)
Definition json_dump (default : pyobj -> pyobj) (obj : pyobj) : result unit :=
  json_iterencode default recursion_limit [] obj.

Section ExportData.

(** [open_for_writing] is [open(filename, 'w')], which may raise. *)
Variable strftime : datetime -> string.
Variable isoformat : datetime -> string.
Variable open_for_writing : string -> result unit.

(** The hook local to [export_data]. *)
Definition convert_datetime (obj : pyobj) : pyobj :=
  match obj with
  | PyDatetime t => PyStr (isoformat t)
  | _ => obj
  end.

(** [if not filename]: [None] and the empty string are both falsy. *)
Definition export_filename (now : datetime) (filename : option string) : string :=
  match filename with
  | Some (String c s) => String c s
  | _ => "feedback_data_" ++ strftime now ++ ".json"
  end.

Definition export_payload (now : datetime) (self : FeedbackGenerator) : pyobj :=
  PyDict
    [ ("feedback_history", PyList (map asdict_feedback (feedback_history self)));
      ("educator_alerts", PyList (map asdict_alert (educator_alerts self)));
      ("export_timestamp", PyStr (isoformat now)) ].

(** [export_data]: it reads the two lists and changes neither. *)
Definition export_data (now : datetime) (filename : option string)
  (self : FeedbackGenerator) : result string :=
  let filename := export_filename now filename in
  let export_data := export_payload now self in
  _ <- open_for_writing filename ;;
  _ <- json_dump convert_datetime export_data ;;
  Ok filename.

End ExportData.

(** ** The example run of the module *)

Section Main.

Variable encode : list string -> result (list (list float)).
Variable cosine_similarity :
  list (list float) -> list (list float) -> result (list (list float)).
Variable strftime : datetime -> string.
Variable isoformat : datetime -> string.
Variable open_for_writing : string -> result unit.

(** The three responses of [main]; [clock k] is the k-th reading of the
    clock. *)
Definition example_responses (clock : nat -> datetime) : list StudentResponse.t :=
  [ {| StudentResponse.student_id := "student_001";
       StudentResponse.question_id := "math_001";
       StudentResponse.response_text :=
         "To solve x + 5 = 10, I subtract 5 from both sides to get x = 5. This works because of inverse operations.";
       StudentResponse.subject := "mathematics";
       StudentResponse.timestamp := clock 0;
       StudentResponse.expected_keywords :=
         Some ["inverse operations"; "subtract"; "both sides"] |};
    {| StudentResponse.student_id := "student_002";
       StudentResponse.question_id := "science_001";
       StudentResponse.response_text := "Gravity pulls things down";
       StudentResponse.subject := "science";
       StudentResponse.timestamp := clock 1;
       StudentResponse.expected_keywords := Some ["force"; "acceleration"; "mass"] |};
    {| StudentResponse.student_id := "student_001";
       StudentResponse.question_id := "english_001";
       StudentResponse.response_text :=
         "The theme of the story is about friendship and how people help each other in difficult times. The author shows this through the main character's actions.";
       StudentResponse.subject := "english";
       StudentResponse.timestamp := clock 2;
       StudentResponse.expected_keywords :=
         Some ["theme"; "character development"; "literary analysis"] |} ].

(** The calls of [main] in their order, without the printing: the three
    responses are recorded, the progress of ["student_001"] and the dashboard
    are read, and the data are exported under the default file name. *)
Definition main (clock : nat -> datetime)
  : result (Progress * Dashboard * string) :=
  let feedback_gen := init in
  feedback_gen <-
    run_script encode cosine_similarity strftime
      (combine [clock 3; clock 4; clock 5] (example_responses clock)) feedback_gen ;;
  progress <- get_student_progress isoformat "student_001" feedback_gen ;;
  let dashboard := get_educator_dashboard isoformat (clock 6) feedback_gen in
  export_file <-
    export_data strftime isoformat open_for_writing (clock 7) None feedback_gen ;;
  Ok (progress, dashboard, export_file).

End Main.

(** ** Example collaborators and states for the export *)

(** A file system on which every file can be opened for writing. *)
Definition open_always (filename : string) : result unit := Ok tt.

(** A generator with one alert and no record (not a reachable one). *)
Definition alert_only_state : FeedbackGenerator :=
  {| feedback_history := [];
     educator_alerts := [low_performance_alert strftime_decimal 1%Z response_low] |}.

(** ** The order of binary64 numbers *)

Module FloatOrder.

Ltac cmp_cases :=
  repeat match goal with
  | |- context [Z.compare ?a ?b] => destruct (Z.compare_spec a b); subst
  | H : context [Z.compare ?a ?b] |- _ => destruct (Z.compare_spec a b); subst
  | |- context [Pos.compare ?a ?b] => destruct (Pos.compare_spec a b); subst
  | H : context [Pos.compare ?a ?b] |- _ => destruct (Pos.compare_spec a b); subst
  end.

Ltac sf_cases x m e := destruct x as [[|]|[|]| |[|] m e].

Lemma SFcompare_swap (x y : spec_float) :
  SFcompare y x = option_map CompOpp (SFcompare x y).
Proof.
  sf_cases x m1 e1; sf_cases y m2 e2; simpl; try reflexivity;
  change (PosDef.Pos.compare_cont Eq) with Pos.compare;
  rewrite (Z.compare_antisym e1 e2), (Pos.compare_antisym m1 m2);
  destruct (Z.compare e1 e2), (Pos.compare m1 m2); reflexivity.
Qed.

Lemma SFleb_trans (x y z : spec_float) :
  SFleb x y = true -> SFleb y z = true -> SFleb x z = true.
Proof.
  unfold SFleb.
  sf_cases x m1 e1; sf_cases y m2 e2; sf_cases z m3 e3;
    simpl; try congruence;
    change (PosDef.Pos.compare_cont Eq) with Pos.compare;
    intros H1 H2; cmp_cases; simpl in *; try congruence; try lia.
Qed.

Lemma SFcompare_None (x y : spec_float) :
  SFcompare x y = None <-> x = S754_nan \/ y = S754_nan.
Proof.
  sf_cases x m1 e1; sf_cases y m2 e2; simpl; split; intros H;
    try discriminate; try (destruct H; discriminate); auto.
Qed.

Lemma is_nan_SF (a : float) : is_nan a = true <-> Prim2SF a = S754_nan.
Proof.
  unfold is_nan. rewrite FloatAxioms.eqb_spec. unfold SFeqb.
  destruct (SFcompare (Prim2SF a) (Prim2SF a)) as [c|] eqn:E.
  - assert (c = Eq) as ->.
    { pose proof (SFcompare_swap (Prim2SF a) (Prim2SF a)) as S.
      rewrite E in S. simpl in S. destruct c; simpl in S; congruence. }
    simpl. split; [discriminate|]. intros N. rewrite N in E. discriminate.
  - simpl. apply SFcompare_None in E. tauto.
Qed.

Lemma not_nan_SF (a : float) : is_nan a = false <-> Prim2SF a <> S754_nan.
Proof.
  rewrite <- is_nan_SF. destruct (is_nan a); split; congruence.
Qed.

(** A comparison that holds has two numbers as operands. *)
Lemma leb_numbers (a b : float) :
  (a <=? b)%float = true -> is_nan a = false /\ is_nan b = false.
Proof.
  rewrite FloatAxioms.leb_spec, !not_nan_SF. unfold SFleb. intros H.
  split; intros N; rewrite N in H; simpl in H;
    [|destruct (Prim2SF a) as [?|?| |? ? ?]]; discriminate.
Qed.

Lemma ltb_numbers (a b : float) :
  (a <? b)%float = true -> is_nan a = false /\ is_nan b = false.
Proof.
  rewrite FloatAxioms.ltb_spec, !not_nan_SF. unfold SFltb. intros H.
  split; intros N; rewrite N in H; simpl in H;
    [|destruct (Prim2SF a) as [?|?| |? ? ?]]; discriminate.
Qed.

Lemma leb_trans (a b c : float) :
  (a <=? b)%float = true -> (b <=? c)%float = true -> (a <=? c)%float = true.
Proof. rewrite !FloatAxioms.leb_spec. apply SFleb_trans. Qed.

(** On numbers the order is total: [b < a] is the negation of [a <= b]. *)
Lemma ltb_negb_leb (a b : float) :
  is_nan a = false -> is_nan b = false ->
  (b <? a)%float = negb (a <=? b)%float.
Proof.
  rewrite !not_nan_SF, FloatAxioms.ltb_spec, FloatAxioms.leb_spec. unfold SFltb, SFleb. intros Ha Hb.
  rewrite (SFcompare_swap (Prim2SF a) (Prim2SF b)).
  destruct (SFcompare (Prim2SF a) (Prim2SF b)) as [[| |]|] eqn:E; simpl; try reflexivity.
  apply SFcompare_None in E. tauto.
Qed.

Lemma leb_refl (a : float) : is_nan a = false -> (a <=? a)%float = true.
Proof.
  intros Ha. pose proof (ltb_negb_leb a a Ha Ha) as T.
  destruct (a <=? a)%float eqn:L; [reflexivity|].
  simpl in T. rewrite FloatAxioms.ltb_spec in T. rewrite FloatAxioms.leb_spec in L.
  unfold SFltb in T. unfold SFleb in L.
  pose proof (SFcompare_swap (Prim2SF a) (Prim2SF a)) as S.
  destruct (SFcompare (Prim2SF a) (Prim2SF a)) as [[| |]|]; simpl in S; congruence.
Qed.

Lemma ltb_leb (a b : float) : (a <? b)%float = true -> (a <=? b)%float = true.
Proof.
  rewrite FloatAxioms.ltb_spec, FloatAxioms.leb_spec. unfold SFltb, SFleb.
  destruct (SFcompare (Prim2SF a) (Prim2SF b)) as [[| |]|]; congruence.
Qed.

(** numpy's order: [np_lt] is the negation of the converse [np_le], and
    [np_le] is a total preorder. *)
Lemma np_lt_negb_np_le (a b : float) : np_lt b a = negb (np_le a b).
Proof.
  unfold np_lt, np_le.
  destruct (is_nan b) eqn:Nb.
  - rewrite orb_true_r. simpl. rewrite orb_false_r.
    destruct (b <? a)%float eqn:L; [|reflexivity].
    apply ltb_numbers in L. destruct L; congruence.
  - simpl. rewrite orb_false_r. destruct (is_nan a) eqn:Na.
    + rewrite orb_true_r. simpl.
      destruct (a <=? b)%float eqn:L; [|reflexivity].
      apply leb_numbers in L. destruct L; congruence.
    + rewrite orb_false_r. apply ltb_negb_leb; assumption.
Qed.

Lemma np_le_refl (a : float) : np_le a a = true.
Proof.
  unfold np_le. destruct (is_nan a) eqn:Na; [apply orb_true_r|].
  rewrite leb_refl; auto.
Qed.

Lemma np_le_trans (a b c : float) :
  np_le a b = true -> np_le b c = true -> np_le a c = true.
Proof.
  unfold np_le. intros H1 H2.
  destruct (is_nan c) eqn:Nc; [apply orb_true_r|].
  rewrite orb_false_r in *.
  destruct (leb_numbers _ _ H2) as [Nb _]. rewrite Nb, orb_false_r in H1.
  eapply leb_trans; eassumption.
Qed.

Lemma np_le_total (a b : float) : np_le a b = false -> np_le b a = true.
Proof.
  intros H. pose proof (np_lt_negb_np_le a b) as T. rewrite H in T. simpl in T.
  unfold np_lt in T. unfold np_le.
  apply orb_true_iff in T. destruct T as [T|T].
  - rewrite (ltb_leb _ _ T). reflexivity.
  - apply andb_true_iff in T. destruct T as [_ T]. rewrite T. apply orb_true_r.
Qed.

(** On numbers numpy's order is the IEEE order. *)
Lemma np_le_leb (a b : float) :
  is_nan b = false -> np_le a b = true -> (a <=? b)%float = true.
Proof. unfold np_le. intros ->. rewrite orb_false_r. auto. Qed.

End FloatOrder.

(** ** numpy's maximum and sort *)

Lemma np_le_of_not_lt (a b : float) : np_lt a b = false -> np_le b a = true.
Proof.
  rewrite FloatOrder.np_lt_negb_np_le. destruct (np_le b a); simpl; congruence.
Qed.

Lemma np_le_of_lt (a b : float) : np_lt a b = true -> np_le a b = true.
Proof.
  rewrite FloatOrder.np_lt_negb_np_le. intros H.
  apply FloatOrder.np_le_total. destruct (np_le b a); simpl in H; congruence.
Qed.

Lemma np_maximum_upper (a b : float) :
  np_le a (np_maximum a b) = true /\ np_le b (np_maximum a b) = true /\
  (np_maximum a b = a \/ np_maximum a b = b).
Proof.
  unfold np_maximum. destruct (np_lt a b) eqn:L.
  - split; [apply np_le_of_lt; exact L|]. split; [apply FloatOrder.np_le_refl|auto].
  - split; [apply FloatOrder.np_le_refl|]. split; [apply np_le_of_not_lt; exact L|auto].
Qed.

Lemma fold_np_maximum (l : list float) (x : float) :
  In (fold_left np_maximum l x) (x :: l) /\
  Forall (fun y => np_le y (fold_left np_maximum l x) = true) (x :: l).
Proof.
  revert x. induction l as [|a l IH]; intros x; simpl.
  - split; [auto|]. constructor; [apply FloatOrder.np_le_refl|constructor].
  - destruct (IH (np_maximum x a)) as [I F].
    destruct (np_maximum_upper x a) as [U1 [U2 E]].
    inversion F as [|? ? F1 F2]; subst. split.
    + simpl in I. destruct I as [I|I]; [|auto].
      rewrite <- I. destruct E as [->| ->]; auto.
    + constructor; [eapply FloatOrder.np_le_trans; eassumption|].
      constructor; [eapply FloatOrder.np_le_trans; eassumption|exact F2].
Qed.

Lemma np_max_spec (l : list float) (m : float) :
  np_max l = Ok m ->
  In m l /\ Forall (fun y => np_le y m = true) l.
Proof.
  destruct l as [|x l]; simpl; [discriminate|].
  intros [= <-]. apply fold_np_maximum.
Qed.

Lemma np_max_nonempty (l : list float) :
  l <> [] -> exists m, np_max l = Ok m.
Proof. destruct l; [congruence|]. simpl. eauto. Qed.

Lemma insert_by_value_In (x : float * nat) (l : list (float * nat)) (z : float * nat) :
  In z (insert_by_value x l) <-> z = x \/ In z l.
Proof.
  induction l as [|y l IH]; simpl.
  - intuition.
  - destruct (np_lt (fst x) (fst y)); simpl; [intuition|].
    rewrite IH. intuition.
Qed.

Lemma insert_by_value_sorted (x : float * nat) (l : list (float * nat)) :
  StronglySorted by_value l -> StronglySorted by_value (insert_by_value x l).
Proof.
  induction 1 as [|y l S IH F]; simpl.
  - constructor; constructor.
  - destruct (np_lt (fst x) (fst y)) eqn:L.
    + constructor; [constructor; assumption|].
      assert (by_value x y) as Hxy by (apply np_le_of_lt; exact L).
      constructor; [exact Hxy|].
      eapply Forall_impl; [|exact F]. intros z Hz.
      unfold by_value in *. eapply FloatOrder.np_le_trans; eassumption.
    + constructor; [exact IH|].
      apply Forall_forall. intros z Hz. apply insert_by_value_In in Hz.
      destruct Hz as [->|Hz].
      * apply np_le_of_not_lt. exact L.
      * rewrite Forall_forall in F. apply F. exact Hz.
Qed.

Lemma sort_by_value_acc (l acc : list (float * nat)) :
  StronglySorted by_value acc ->
  StronglySorted by_value (fold_left (fun acc x => insert_by_value x acc) l acc) /\
  (forall z, In z (fold_left (fun acc x => insert_by_value x acc) l acc)
             <-> In z l \/ In z acc) /\
  List.length (fold_left (fun acc x => insert_by_value x acc) l acc)
    = List.length l + List.length acc.
Proof.
  revert acc. induction l as [|x l IH]; intros acc S; simpl.
  - split; [exact S|]. split; [intuition|reflexivity].
  - destruct (IH (insert_by_value x acc) (insert_by_value_sorted x acc S)) as [S' [I' L']].
    split; [exact S'|]. split.
    + intros z. rewrite I', insert_by_value_In. intuition.
    + rewrite L'. clear. induction acc as [|y acc IHa]; simpl; [lia|].
      destruct (np_lt (fst x) (fst y)); simpl; lia.
Qed.

Lemma sort_by_value_spec (l : list (float * nat)) :
  StronglySorted by_value (sort_by_value l) /\
  (forall z, In z (sort_by_value l) <-> In z l) /\
  List.length (sort_by_value l) = List.length l.
Proof.
  destruct (sort_by_value_acc l [] (SSorted_nil _)) as [S [I L]].
  split; [exact S|]. split.
  - intros z. unfold sort_by_value. rewrite I. simpl. intuition.
  - unfold sort_by_value. rewrite L. simpl. lia.
Qed.

Lemma StronglySorted_skipn {A : Type} (R : A -> A -> Prop) (n : nat) (l : list A) :
  StronglySorted R l -> StronglySorted R (skipn n l).
Proof.
  intros S. revert n. induction S as [|a l S IH F]; intros [|n]; simpl;
    try constructor; auto.
Qed.

Lemma StronglySorted_app_one {A : Type} (R : A -> A -> Prop) (l : list A) (a : A) :
  StronglySorted R l -> Forall (fun b => R b a) l -> StronglySorted R (l ++ [a]).
Proof.
  induction 1 as [|b l S IH F]; intros H; simpl.
  - constructor; constructor.
  - inversion H; subst. constructor; [apply IH; assumption|].
    apply Forall_app. split; [exact F|]. constructor; [assumption|constructor].
Qed.

Lemma StronglySorted_rev {A : Type} (R : A -> A -> Prop) (l : list A) :
  StronglySorted R l -> StronglySorted (fun a b => R b a) (rev l).
Proof.
  induction 1 as [|a l S IH F]; simpl; [constructor|].
  apply StronglySorted_app_one; [exact IH|].
  apply Forall_forall. intros b Hb. apply in_rev in Hb.
  rewrite Forall_forall in F. apply F. exact Hb.
Qed.

Lemma StronglySorted_filter {A : Type} (R : A -> A -> Prop) (f : A -> bool) (l : list A) :
  StronglySorted R l -> StronglySorted R (filter f l).
Proof.
  induction 1 as [|a l S IH F]; simpl; [constructor|].
  destruct (f a); [|exact IH].
  constructor; [exact IH|].
  apply Forall_forall. intros b Hb. apply filter_In in Hb.
  rewrite Forall_forall in F. apply F. tauto.
Qed.

Lemma StronglySorted_map {A B : Type} (R : B -> B -> Prop) (f : A -> B) (l : list A) :
  StronglySorted (fun a b => R (f a) (f b)) l -> StronglySorted R (map f l).
Proof.
  induction 1 as [|a l S IH F]; simpl; constructor; [exact IH|].
  apply Forall_map. exact F.
Qed.

Lemma In_combine_seq (l : list float) (start : nat) (v : float) (i : nat) :
  In (v, i) (combine l (seq start (List.length l))) ->
  start <= i /\ nth_error l (i - start) = Some v.
Proof.
  revert start. induction l as [|x l IH]; intros start; simpl; [tauto|].
  intros [E|H].
  - injection E as -> ->. split; [lia|]. rewrite Nat.sub_diag. reflexivity.
  - destruct (IH (S start) H) as [Hle Hn]. split; [lia|].
    replace (i - start) with (S (i - S start)) by lia. exact Hn.
Qed.

Lemma top_three_pairs (similarities : list float) :
  top_three similarities = map snd (top_pairs similarities).
Proof.
  unfold top_three, top_pairs, np_argsort, last_n.
  rewrite length_map, skipn_map, map_rev. reflexivity.
Qed.

Lemma top_pairs_spec (similarities : list float) :
  List.length (top_pairs similarities) <= 3 /\
  StronglySorted (fun p q => np_le (fst q) (fst p) = true) (top_pairs similarities) /\
  Forall (fun p => nth_error similarities (snd p) = Some (fst p)) (top_pairs similarities).
Proof.
  unfold top_pairs, last_n.
  destruct (sort_by_value_spec (combine similarities (seq 0 (List.length similarities))))
    as [S [I L]].
  split; [|split].
  - rewrite length_rev, length_skipn. lia.
  - apply (StronglySorted_rev by_value). apply StronglySorted_skipn. exact S.
  - apply Forall_forall. intros [v i] H. apply in_rev in H.
    assert (In (v, i) (sort_by_value (combine similarities (seq 0 (List.length similarities)))))
      as H'.
    { rewrite <- (firstn_skipn (List.length
        (sort_by_value (combine similarities (seq 0 (List.length similarities)))) - 3)).
      apply in_or_app. right. exact H. }
    apply I in H'. apply In_combine_seq in H'. destruct H' as [_ H'].
    rewrite Nat.sub_0_r in H'. exact H'.
Qed.

(** What the comprehension over the top indices returns. *)
Lemma select_matches_pairs (all_refs : list string) (similarities : list float)
  (pairs : list (float * nat)) :
  List.length similarities = List.length all_refs ->
  Forall (fun p => nth_error similarities (snd p) = Some (fst p)) pairs ->
  exists scored : list (float * string),
    select_matches all_refs similarities (map snd pairs) = Ok (map snd scored) /\
    map fst scored = map fst (filter (fun p => py_gt (fst p) 0.3%float) pairs) /\
    Forall (fun p => exists i,
                nth_error similarities i = Some (fst p) /\
                nth_error all_refs i = Some (snd p)) scored.
Proof.
  intros Hlen. induction 1 as [|[v i] pairs Hp _ IH].
  - exists []. simpl. auto.
  - destruct IH as [scored [Hs [Hf Ha]]]. cbn [fst snd] in Hp.
    cbn [map snd fst filter select_matches].
    unfold index at 1. rewrite Hp. cbn [bind].
    destruct (py_gt v 0.3%float) eqn:G.
    + assert (i < List.length all_refs) as Hi.
      { rewrite <- Hlen. apply nth_error_Some. congruence. }
      destruct (nth_error all_refs i) as [ref|] eqn:Hr;
        [|apply nth_error_None in Hr; lia].
      exists ((v, ref) :: scored). unfold index. rewrite Hr. cbn [bind].
      rewrite Hs. cbn [bind map fst snd]. split; [reflexivity|].
      split; [congruence|].
      constructor; [exists i; auto|exact Ha].
    + exists scored. auto.
Qed.

Lemma StronglySorted_unmap {A B : Type} (R : B -> B -> Prop) (f : A -> B) (l : list A) :
  StronglySorted R (map f l) -> StronglySorted (fun a b => R (f a) (f b)) l.
Proof.
  induction l as [|a l IH]; simpl; intros S; [constructor|].
  inversion S as [|? ? S' F]; subst. constructor; [apply IH; exact S'|].
  rewrite Forall_forall in *. intros b Hb. apply F. apply in_map. exact Hb.
Qed.

Lemma StronglySorted_weaken {A : Type} (R R' : A -> A -> Prop) (P : A -> Prop)
  (l : list A) :
  (forall a b, P a -> P b -> R a b -> R' a b) ->
  Forall P l -> StronglySorted R l -> StronglySorted R' l.
Proof.
  intros W F S. induction S as [|a l S IH Fa]; [constructor|].
  inversion F as [|? ? Pa Pl]; subst. constructor; [apply IH; exact Pl|].
  rewrite Forall_forall in *. intros b Hb. apply W; auto.
Qed.

Lemma gt_number (v t : float) : py_gt v t = true -> is_nan v = false.
Proof. unfold py_gt. intros H. apply FloatOrder.ltb_numbers in H. tauto. Qed.

(** ** The reward classifier: threshold table and monotonicity *)

Lemma determine_reward_cascade (s : float) :
  determine_reward s =
    if py_ge s 0.9%float then (PLATINUM, 100%Z)
    else if py_ge s 0.8%float then (GOLD, 75%Z)
    else if py_ge s 0.65%float then (SILVER, 50%Z)
    else if py_ge s 0.4%float then (BRONZE, 25%Z)
    else (BRONZE, 10%Z).
Proof.
  unfold determine_reward, reward_criteria, _setup_reward_criteria.
  cbn [first_reached min_score points].
  destruct (py_ge s 0.9%float); [reflexivity|].
  destruct (py_ge s 0.8%float); [reflexivity|].
  destruct (py_ge s 0.65%float); [reflexivity|].
  destruct (py_ge s 0.4%float); reflexivity.
Qed.

(** A threshold reached by a score is reached by every larger score. *)
Lemma ge_upward (t s1 s2 : float) :
  (s1 <=? s2)%float = true -> py_ge s1 t = true -> py_ge s2 t = true.
Proof.
  unfold py_ge. intros H12 H. eapply FloatOrder.leb_trans; eassumption.
Qed.

(** C1: for every score (any binary64 value, NaN and the infinities
    included) [determine_reward] returns the first matching entry of the
    threshold table read from the highest threshold down: platinum and 100
    points from 0.90, gold and 75 from 0.80, silver and 50 from 0.65, bronze
    and 25 from 0.40, and below all of them the participation fallback,
    bronze with 10 points. *)
Theorem determine_reward_first_match (s : float) :
  determine_reward s =
    if (0.9 <=? s)%float then (PLATINUM, 100%Z)
    else if (0.8 <=? s)%float then (GOLD, 75%Z)
    else if (0.65 <=? s)%float then (SILVER, 50%Z)
    else if (0.4 <=? s)%float then (BRONZE, 25%Z)
    else (BRONZE, 10%Z).
Proof.
  unfold determine_reward, reward_criteria, _setup_reward_criteria.
  cbn [first_reached min_score points]. unfold py_ge.
  destruct (0.9 <=? s)%float; [reflexivity|].
  destruct (0.8 <=? s)%float; [reflexivity|].
  destruct (0.65 <=? s)%float; [reflexivity|].
  destruct (0.4 <=? s)%float; reflexivity.
Qed.

Example determine_reward_at_the_thresholds :
  map determine_reward [1; 0.9; 0.89; 0.8; 0.65; 0.64; 0.4; 0.39; 0; nan]%float =
  [ (PLATINUM, 100); (PLATINUM, 100); (GOLD, 75); (GOLD, 75); (SILVER, 50);
    (BRONZE, 25); (BRONZE, 25); (BRONZE, 10); (BRONZE, 10); (BRONZE, 10) ]%Z.
Proof. reflexivity. Qed.

(** C7: on scores of the unit interval the classifier returns exactly one
    of its five outcomes, whose points fall strictly from platinum (100) to
    gold (75), silver (50), bronze from 0.4 (25) and default bronze (10), and
    the points awarded never decrease when the score grows. *)
Theorem determine_reward_monotone (s1 s2 : float) :
  in_unit_interval s1 = true ->
  in_unit_interval s2 = true ->
  (s1 <=? s2)%float = true ->
  (exists! reward, determine_reward s1 = reward /\ In reward reward_outcomes) /\
  map snd reward_outcomes = [100; 75; 50; 25; 10]%Z /\
  (snd (determine_reward s1) <= snd (determine_reward s2))%Z.
Proof.
  intros _ _ H12. split; [|split; [reflexivity|]].
  - exists (determine_reward s1). split.
    + split; [reflexivity|]. rewrite determine_reward_cascade.
      unfold reward_outcomes.
      destruct (py_ge s1 0.9%float); [simpl; auto|].
      destruct (py_ge s1 0.8%float); [simpl; auto|].
      destruct (py_ge s1 0.65%float); [simpl; auto|].
      destruct (py_ge s1 0.4%float); simpl; auto 6.
    + intros r [E _]. exact E.
  - rewrite !determine_reward_cascade.
    pose proof (ge_upward 0.9%float s1 s2 H12) as U1.
    pose proof (ge_upward 0.8%float s1 s2 H12) as U2.
    pose proof (ge_upward 0.65%float s1 s2 H12) as U3.
    pose proof (ge_upward 0.4%float s1 s2 H12) as U4.
    destruct (py_ge s1 0.9%float); [rewrite U1 by reflexivity; simpl; lia|].
    destruct (py_ge s1 0.8%float);
      [rewrite U2 by reflexivity; destruct (py_ge s2 0.9%float); simpl; lia|].
    destruct (py_ge s1 0.65%float);
      [rewrite U3 by reflexivity;
       destruct (py_ge s2 0.9%float), (py_ge s2 0.8%float); simpl; lia|].
    destruct (py_ge s1 0.4%float);
      [rewrite U4 by reflexivity;
       destruct (py_ge s2 0.9%float), (py_ge s2 0.8%float), (py_ge s2 0.65%float); simpl; lia|].
    destruct (py_ge s2 0.9%float), (py_ge s2 0.8%float), (py_ge s2 0.65%float), (py_ge s2 0.4%float);
      simpl; lia.
Qed.

(** ** The similarity scorer: subjects, defaults and failures *)

Lemma dict_get_absent {V : Type} (d : list (string * list V)) (key : string) :
  ~ In key (map fst d) -> dict_get d key = [].
Proof.
  induction d as [|[k v] d IH]; simpl; intros H; [reflexivity|].
  destruct (String.eqb_spec k key) as [E|E].
  - exfalso. apply H. left. exact E.
  - apply IH. intros I. apply H. right. exact I.
Qed.

Lemma ascii_lower_same_letter (c d : ascii) :
  same_letter c d -> ascii_lower c = ascii_lower d.
Proof.
  intros [->|[n [Hn [[Hc Hd]|[Hd Hc]]]]]; [reflexivity| |]; unfold ascii_lower;
    rewrite Hc, Hd.
  - replace (Nat.leb 65 n && Nat.leb n 90)%bool with true
      by (symmetry; apply andb_true_iff; split; apply Nat.leb_le; lia).
    replace (Nat.leb 65 (n + 32) && Nat.leb (n + 32) 90)%bool with false
      by (symmetry; apply andb_false_iff; right; apply Nat.leb_gt; lia).
    rewrite <- Hd. apply ascii_nat_embedding.
  - replace (Nat.leb 65 n && Nat.leb n 90)%bool with true
      by (symmetry; apply andb_true_iff; split; apply Nat.leb_le; lia).
    replace (Nat.leb 65 (n + 32) && Nat.leb (n + 32) 90)%bool with false
      by (symmetry; apply andb_false_iff; right; apply Nat.leb_gt; lia).
    rewrite <- Hc. symmetry. apply ascii_nat_embedding.
Qed.

Lemma lower_differ_only_in_case (s t : string) :
  differ_only_in_case s t -> lower s = lower t.
Proof.
  revert t. induction s as [|c s IH]; intros [|d t]; simpl; try tauto.
  intros [L R]. rewrite (ascii_lower_same_letter c d L), (IH t R). reflexivity.
Qed.

Lemma corpus_subjects_lower :
  Forall (fun k => lower k = k /\ dict_get reference_answers k <> []) corpus_subjects.
Proof.
  repeat constructor; simpl; discriminate.
Qed.

Lemma corpus_subjects_refs :
  Forall (fun k => flatten_refs (dict_get reference_answers k) <> []) corpus_subjects.
Proof. repeat constructor; simpl; discriminate. Qed.

Lemma add_keywords_nonempty (all_refs : list string) (kws : option (list string)) :
  all_refs <> [] -> add_keywords all_refs kws <> [].
Proof.
  intros H. destruct kws as [[|k ks]|]; simpl; try exact H.
  destruct all_refs; [congruence|discriminate].
Qed.

Section ScorerFacts.

Variable encode : list string -> result (list (list float)).
Variable cosine_similarity :
  list (list float) -> list (list float) -> result (list (list float)).

#[local] Abbreviation analyze := (analyze_response encode cosine_similarity).
#[local] Abbreviation analyze_body := (analyze_response_body encode cosine_similarity).

Lemma analyze_response_total (r : StudentResponse.t) :
  exists score matches, analyze r = Ok (score, matches).
Proof.
  unfold analyze_response.
  destruct (analyze_response_body encode cosine_similarity r) as [[score matches]|e];
    simpl; eauto.
Qed.




(** C6: a response whose subject key (the lower-cased subject the lookup
    uses) is not a key of the reference corpus gets the score 0.5 exactly and
    no matches, and the call returns normally. *)
Theorem analyze_response_unknown_subject (r : StudentResponse.t) :
  ~ In (lower (StudentResponse.subject r)) corpus_subjects ->
  analyze r = Ok (0.5%float, []).
Proof.
  intros H. unfold analyze_response, analyze_response_body.
  rewrite (dict_get_absent reference_answers _ H). reflexivity.
Qed.

(** C4: [analyze_response] returns a pair for every input and never
    raises; whenever its [try] body raises, and in particular whenever the
    embedding and similarity step of a known subject fails, the result is
    the score 0.0 with no matches. *)
Theorem analyze_response_never_raises (r : StudentResponse.t) :
  (exists score matches, analyze r = Ok (score, matches)) /\
  (forall e, analyze_body r = Raise e -> analyze r = Ok (0.0%float, [])) /\
  (forall e,
      dict_get reference_answers (lower (StudentResponse.subject r)) <> [] ->
      similarity_step encode cosine_similarity
        (StudentResponse.response_text r) (all_refs_of r) = Raise e ->
      analyze r = Ok (0.0%float, [])).
Proof.
  split; [|split].
  - unfold analyze_response.
    destruct (analyze_body r) as [[score matches]|e]; simpl; eauto.
  - intros e H. unfold analyze_response. rewrite H. reflexivity.
  - intros e Hk Hs. unfold analyze_response, analyze_response_body.
    unfold all_refs_of in Hs.
    destruct (dict_get reference_answers (lower (StudentResponse.subject r)))
      as [|topic topics]; [congruence|].
    rewrite Hs. reflexivity.
Qed.

(** C5: for a response whose subject is a key of the corpus, when the
    similarity step returns one cosine similarity per reference string,
    [analyze_response] returns the maximum of these similarities (an entry
    that no other entry exceeds, in numpy's order and, unless it is NaN, in
    the IEEE order), and at most three matches: each is a reference string
    with a similarity strictly above 0.3, and their similarities come in
    descending order. *)
Theorem analyze_response_best_matches (r : StudentResponse.t)
  (similarities : list float) :
  In (lower (StudentResponse.subject r)) corpus_subjects ->
  similarity_step encode cosine_similarity
    (StudentResponse.response_text r) (all_refs_of r) = Ok similarities ->
  List.length similarities = List.length (all_refs_of r) ->
  exists (score : float) (scored : list (float * string)),
    analyze r = Ok (score, map snd scored) /\
    In score similarities /\
    Forall (fun x => np_le x score = true) similarities /\
    (is_nan score = false -> Forall (fun x => (x <=? score)%float = true) similarities) /\
    List.length scored <= 3 /\
    Forall (fun p => py_gt (fst p) 0.3%float = true /\
                     exists i, nth_error similarities i = Some (fst p) /\
                               nth_error (all_refs_of r) i = Some (snd p)) scored /\
    StronglySorted (fun p q => py_ge (fst p) (fst q) = true) scored.
Proof.
  intros Hin Hstep Hlen.
  pose proof corpus_subjects_lower as F1. pose proof corpus_subjects_refs as F2.
  rewrite Forall_forall in F1, F2.
  destruct (F1 _ Hin) as [_ Hne]. specialize (F2 _ Hin).
  assert (all_refs_of r <> []) as Hrefs
    by (unfold all_refs_of; apply add_keywords_nonempty; exact F2).
  assert (similarities <> []) as Hsims.
  { intros ->. destruct (all_refs_of r); simpl in Hlen; congruence. }
  destruct (np_max_nonempty similarities Hsims) as [score Hmax].
  destruct (np_max_spec similarities score Hmax) as [Hscore Hupper].
  destruct (top_pairs_spec similarities) as [Hlen3 [Hsorted Hnth]].
  destruct (select_matches_pairs (all_refs_of r) similarities (top_pairs similarities)
              Hlen Hnth) as [scored [Hsel [Hfst Hat]]].
  exists score, scored.
  assert (Forall (fun v => py_gt v 0.3%float = true) (map fst scored)) as Hgt.
  { rewrite Hfst. apply Forall_map. apply Forall_forall. intros p Hp.
    apply filter_In in Hp. tauto. }
  split; [|split; [exact Hscore|split; [exact Hupper|split; [|split; [|split]]]]].
  - unfold analyze_response, analyze_response_body.
    unfold all_refs_of in Hstep, Hsel.
    destruct (dict_get reference_answers (lower (StudentResponse.subject r)))
      as [|topic topics] eqn:Hd; [congruence|].
    rewrite Hstep. cbn [bind]. rewrite Hmax. cbn [bind].
    rewrite top_three_pairs, Hsel. reflexivity.
  - intros Hnum. eapply Forall_impl; [|exact Hupper].
    intros x Hx. apply FloatOrder.np_le_leb; assumption.
  - rewrite <- (length_map fst scored), Hfst, length_map.
    pose proof (filter_length_le (fun p => py_gt (fst p) 0.3%float) (top_pairs similarities)).
    lia.
  - apply Forall_map in Hgt. rewrite Forall_forall in *.
    intros p Hp. split; [apply Hgt; exact Hp|apply Hat; exact Hp].
  - apply (StronglySorted_unmap (fun a b => py_ge a b = true)).
    apply (StronglySorted_weaken (fun a b => np_le b a = true) _
             (fun v => py_gt v 0.3%float = true)); [| exact Hgt |].
    + intros a b Ha _ Hab. unfold py_ge. apply FloatOrder.np_le_leb; [|exact Hab].
      eapply gt_number. exact Ha.
    + rewrite Hfst. apply StronglySorted_map. apply StronglySorted_filter.
      exact Hsorted.
Qed.

End ScorerFacts.

(** ** Progress and dashboard: absent students and repeated reads *)

Lemma filter_student_absent (student_id : string) (history : list Feedback.t) :
  ~ In student_id (map Feedback.student_id history) ->
  filter (fun f => String.eqb (Feedback.student_id f) student_id) history = [].
Proof.
  induction history as [|f history IH]; simpl; intros H; [reflexivity|].
  destruct (String.eqb_spec (Feedback.student_id f) student_id) as [E|E].
  - exfalso. apply H. left. exact E.
  - apply IH. intros I. apply H. right. exact I.
Qed.

(** C8: for a student without any record in the history, and so for every
    student of a generator that has recorded nothing yet,
    [get_student_progress] returns the ["error"] dictionary and does not
    raise. *)
Theorem get_student_progress_no_data (isoformat : datetime -> string)
  (student_id : string) (self : FeedbackGenerator) :
  ~ In student_id (map Feedback.student_id (feedback_history self)) ->
  get_student_progress isoformat student_id self
    = Ok (ProgressError "No feedback found for this student") /\
  get_student_progress isoformat student_id init
    = Ok (ProgressError "No feedback found for this student").
Proof.
  intros H. split; [|reflexivity].
  unfold get_student_progress. rewrite (filter_student_absent _ _ H). reflexivity.
Qed.

(** C9: two calls of [get_educator_dashboard] on the same history and
    alert lists, whatever the clock shows at each call, return the same
    class overview: the same number of students and of responses, the same
    class average and the same number of students needing attention. *)
Theorem get_educator_dashboard_overview_stable (isoformat : datetime -> string)
  (self : FeedbackGenerator) (now1 now2 : datetime) :
  let first_call := get_educator_dashboard isoformat now1 self in
  let second_call := get_educator_dashboard isoformat now2 self in
  class_overview first_call = class_overview second_call /\
  total_students (class_overview first_call)
    = total_students (class_overview second_call) /\
  total_responses (class_overview first_call)
    = total_responses (class_overview second_call) /\
  class_average_score (class_overview first_call)
    = class_average_score (class_overview second_call) /\
  students_needing_attention (class_overview first_call)
    = students_needing_attention (class_overview second_call).
Proof.
  cbv zeta. unfold get_educator_dashboard. cbn [class_overview].
  repeat split; reflexivity.
Qed.

(** ** Recording: what one call appends *)

Lemma criteria_of_determine_reward (s : float) :
  exists criteria, criteria_of reward_criteria (fst (determine_reward s)) = Ok criteria.
Proof.
  rewrite determine_reward_cascade.
  destruct (py_ge s 0.9%float); [simpl; eauto|].
  destruct (py_ge s 0.8%float); [simpl; eauto|].
  destruct (py_ge s 0.65%float); [simpl; eauto|].
  destruct (py_ge s 0.4%float); simpl; eauto.
Qed.

Lemma skipn_app_le {A : Type} (n : nat) (l1 l2 : list A) :
  n <= List.length l1 -> skipn n (l1 ++ l2) = (skipn n l1 ++ l2)%list.
Proof.
  revert n. induction l1 as [|a l1 IH]; intros [|n] H; simpl in *;
    try reflexivity; try lia.
  apply IH. lia.
Qed.

Lemma filter_skipn_absent (student_id : string) (n : nat) (history : list Feedback.t) :
  ~ In student_id (map Feedback.student_id history) ->
  filter (fun f => String.eqb (Feedback.student_id f) student_id) (skipn n history) = [].
Proof.
  intros H. apply filter_student_absent. intros I. apply H.
  apply in_map_iff in I. destruct I as [f [E I]].
  apply in_map_iff. exists f. split; [exact E|].
  rewrite <- (firstn_skipn n history). apply in_or_app. right. exact I.
Qed.

Lemma filter_student_all (student_id : string) (l : list Feedback.t) :
  Forall (fun f => Feedback.student_id f = student_id) l ->
  filter (fun f => String.eqb (Feedback.student_id f) student_id) l = l.
Proof.
  induction 1 as [|f l E _ IH]; simpl; [reflexivity|].
  rewrite E, String.eqb_refl, IH. reflexivity.
Qed.

(** The window of the last [n] records, filtered to a student whose only
    records are the [n] or fewer most recent ones. *)
Lemma recent_scores_of_tail (n : nat) (student_id : string)
  (history tail : list Feedback.t) :
  ~ In student_id (map Feedback.student_id history) ->
  List.length tail <= n ->
  Forall (fun f => Feedback.student_id f = student_id) tail ->
  recent_scores_of n (history ++ tail) student_id = map Feedback.similarity_score tail.
Proof.
  intros Habs Hlen Hall. unfold recent_scores_of, last_n.
  rewrite skipn_app_le by (rewrite length_app; lia).
  rewrite filter_app, filter_skipn_absent by exact Habs.
  simpl. rewrite filter_student_all by exact Hall. reflexivity.
Qed.

Section RecordingFacts.

Variable encode : list string -> result (list (list float)).
Variable cosine_similarity :
  list (list float) -> list (list float) -> result (list (list float)).
Variable strftime : datetime -> string.

#[local] Abbreviation analyze := (analyze_response encode cosine_similarity).
#[local] Abbreviation record := (generate_feedback encode cosine_similarity strftime).
#[local] Abbreviation run := (run_script encode cosine_similarity strftime).
#[local] Abbreviation low := (low_performance_alert strftime).
#[local] Abbreviation struggle := (consistent_struggle_alert strftime).

(** One call of [generate_feedback] whose scoring step returned [s]: the
    call returns a record carrying that score, appends it to the history and
    then extends the alerts by what the rules find in the longer history. *)
Lemma generate_feedback_appends (now : datetime) (r : StudentResponse.t)
  (self : FeedbackGenerator) (s : float) (matches : list string) :
  analyze r = Ok (s, matches) ->
  exists f,
    record now r self =
      Ok (f, {| feedback_history := (feedback_history self ++ [f])%list;
                educator_alerts :=
                  (educator_alerts self
                   ++ new_alerts strftime now r s (feedback_history self ++ [f]))%list |})
    /\ Feedback.similarity_score f = s
    /\ Feedback.student_id f = StudentResponse.student_id r
    /\ (Feedback.reward_type f, Feedback.points_earned f) = determine_reward s.
Proof.
  intros Ha. unfold generate_feedback. rewrite Ha. cbn [bind].
  unfold generate_personalized_feedback.
  destruct (criteria_of_determine_reward s) as [criteria Hc].
  destruct (determine_reward s) as [reward_type pts]. cbn [fst] in Hc.
  rewrite Hc. cbn [bind try_except _check_for_educator_alerts
                   feedback_history educator_alerts].
  eexists. split; [reflexivity|]. cbn. auto.
Qed.

(** The alerts one call collects for a score of 0.2: always the
    low-performance alert, and the consistent-struggle alert when the window
    holds at least three scores of the student, all below 0.5. *)
Lemma new_alerts_score_02 (now : datetime) (r : StudentResponse.t)
  (history : list Feedback.t) :
  new_alerts strftime now r 0.2%float history =
    low now r ::
    (if (Nat.leb 3 (List.length
                      (recent_scores_of 5 history (StudentResponse.student_id r)))
         && forallb (fun score => py_lt score 0.5%float)
              (recent_scores_of 5 history (StudentResponse.student_id r)))%bool
     then [struggle now r] else []).
Proof.
  unfold new_alerts.
  replace (py_lt 0.2%float 0.3%float) with true by reflexivity.
  destruct (_ && _)%bool; reflexivity.
Qed.

Lemma lt_02_05 : py_lt 0.2%float 0.5%float = true.
Proof. reflexivity. Qed.

(** C3 (as the code behaves): five responses of one student, each scored
    0.2, recorded one after the other on a history that holds no earlier
    record of that student, add one low-performance alert per record (five in
    all) and one consistent-struggle alert for each record from the third on
    (three in all): the rule fires again at the fourth and the fifth record,
    since alerts are appended without deduplication. *)
Theorem five_low_scores_alerts (self : FeedbackGenerator) (sid : string)
  (t1 t2 t3 t4 t5 : datetime) (r1 r2 r3 r4 r5 : StudentResponse.t) :
  ~ In sid (map Feedback.student_id (feedback_history self)) ->
  Forall (fun r => StudentResponse.student_id r = sid /\
                   exists matches, analyze r = Ok (0.2%float, matches))
    [r1; r2; r3; r4; r5] ->
  exists self' added,
    run [(t1, r1); (t2, r2); (t3, r3); (t4, r4); (t5, r5)] self = Ok self' /\
    educator_alerts self' = (educator_alerts self ++ added)%list /\
    map EducatorAlert.alert_type added =
      [ "low_performance"; "low_performance";
        "low_performance"; "consistent_struggle";
        "low_performance"; "consistent_struggle";
        "low_performance"; "consistent_struggle" ] /\
    Forall (fun alert => EducatorAlert.student_id alert = sid) added /\
    count_alerts "low_performance" added = 5 /\
    count_alerts "consistent_struggle" added = 3 /\
    List.length (feedback_history self') = List.length (feedback_history self) + 5.
Proof.
  intros Habs Hall.
  repeat match goal with
  | H : Forall _ (_ :: _) |- _ => inversion H; clear H
  end.
  repeat match goal with
  | H : _ /\ _ |- _ => destruct H
  | H : exists _, _ |- _ => destruct H
  end.
  subst.
  destruct self as [h0 a0]. cbn [feedback_history educator_alerts] in *.
  unfold run_script.
  repeat match goal with
  | Ha : analyze ?r = Ok (_, _)
    |- context [generate_feedback _ _ _ ?now ?r ?st] =>
      let f := fresh "f" in let Hf := fresh "Hf" in
      destruct (generate_feedback_appends now r st _ _ Ha) as [f [Hf [? [? _]]]];
      rewrite Hf; clear Hf; cbn [bind feedback_history educator_alerts]
  end.
  do 2 eexists. split; [reflexivity|]. cbn [educator_alerts feedback_history].
  rewrite !new_alerts_score_02.
  repeat rewrite <- (app_assoc h0).
  cbn [app].
  repeat rewrite recent_scores_of_tail
    by (try exact Habs; cbn [List.length]; try lia;
        repeat constructor; congruence).
  cbn [map List.length Nat.leb forallb andb].
  repeat match goal with H : Feedback.similarity_score _ = _ |- _ => rewrite H; clear H end.
  rewrite !lt_02_05. cbn [andb].
  rewrite <- !app_assoc. cbn [app].
  split; [reflexivity|]. split; [reflexivity|].
  split; [repeat (constructor; [cbn; congruence|]); constructor|].
  split; [reflexivity|]. split; [reflexivity|].
  rewrite !length_app. cbn [List.length]. lia.
Qed.



End RecordingFacts.

(** ** Worked examples *)

(** [determine_reward_monotone] on the scores 0.5 and 0.85. *)
Lemma determine_reward_monotone_witness :
  in_unit_interval 0.5%float = true /\
  in_unit_interval 0.85%float = true /\
  (0.5 <=? 0.85)%float = true /\
  determine_reward 0.5%float = (BRONZE, 25%Z) /\
  determine_reward 0.85%float = (GOLD, 75%Z) /\
  (snd (determine_reward 0.5%float) <= snd (determine_reward 0.85%float))%Z.
Proof.
  split; [reflexivity|]. split; [reflexivity|]. split; [reflexivity|].
  split; [reflexivity|]. split; [reflexivity|].
  apply (determine_reward_monotone 0.5%float 0.85%float); reflexivity.
Defined.

(** [analyze_response_unknown_subject] on the subject "History", which the
    corpus does not hold. *)
Lemma analyze_response_unknown_subject_witness :
  ~ In (lower (StudentResponse.subject response_unknown)) corpus_subjects /\
  analyze_response (encode_with embed_low) sklearn_cosine_similarity response_unknown
    = Ok (0.5%float, []).
Proof.
  assert (~ In (lower (StudentResponse.subject response_unknown)) corpus_subjects) as H
    by (simpl; intuition discriminate).
  split; [exact H|].
  apply (analyze_response_unknown_subject (encode_with embed_low)
           sklearn_cosine_similarity response_unknown H).
Defined.

(** The model is down: the scorer degrades to (0.0, []). *)
Example analyze_response_model_down :
  analyze_response encode_down sklearn_cosine_similarity response_math
    = Ok (0.0%float, []).
Proof. reflexivity. Qed.

Ltac same_letter_tac :=
  first [ left; reflexivity
        | right; eexists; split;
          [|first [left; split; reflexivity | right; split; reflexivity]];
          vm_compute; lia ].

(** [get_student_progress_no_data] on a history that holds one record of
    another student. *)
Lemma get_student_progress_no_data_witness :
  ~ In "student_999" (map Feedback.student_id (feedback_history recorded_once)) /\
  map Feedback.student_id (feedback_history recorded_once) = ["student_002"] /\
  get_student_progress strftime_decimal "student_999" recorded_once
    = Ok (ProgressError "No feedback found for this student").
Proof.
  assert (~ In "student_999" (map Feedback.student_id (feedback_history recorded_once)))
    as H by (vm_compute; intuition discriminate).
  split; [exact H|]. split; [reflexivity|].
  apply (get_student_progress_no_data strftime_decimal "student_999" recorded_once H).
Defined.

(** [five_low_scores_alerts] on a fresh generator, with embeddings whose
    cosine is exactly 0.2: the response at (1,0,0,0), every reference at
    (1,2,2,4), of norm 5. *)
Lemma five_low_scores_alerts_witness :
  exists self' added,
    run_script (encode_with embed_low) sklearn_cosine_similarity strftime_decimal
      script_low init = Ok self' /\
    educator_alerts self' = (educator_alerts init ++ added)%list /\
    map EducatorAlert.alert_type added =
      [ "low_performance"; "low_performance";
        "low_performance"; "consistent_struggle";
        "low_performance"; "consistent_struggle";
        "low_performance"; "consistent_struggle" ] /\
    count_alerts "low_performance" added = 5 /\
    count_alerts "consistent_struggle" added = 3.
Proof.
  destruct (five_low_scores_alerts (encode_with embed_low) sklearn_cosine_similarity
              strftime_decimal init "student_002" 1%Z 2%Z 3%Z 4%Z 5%Z
              response_low response_low response_low response_low response_low)
    as [self' [added [Hrun [Halerts [Htypes [_ [Hlow [Hstruggle _]]]]]]]].
  - simpl. tauto.
  - repeat constructor; exists []; vm_compute; reflexivity.
  - exists self', added. repeat split; assumption.
Defined.

(** Counterexample to C3 as stated: the same five records leave three
    consistent-struggle alerts behind, not one. *)
Lemma five_low_scores_one_struggle_alert_fails :
  exists self',
    run_script (encode_with embed_low) sklearn_cosine_similarity strftime_decimal
      script_low init = Ok self' /\
    map Feedback.similarity_score (feedback_history self')
      = [0.2; 0.2; 0.2; 0.2; 0.2]%float /\
    count_alerts "low_performance" (educator_alerts self') = 5 /\
    count_alerts "consistent_struggle" (educator_alerts self') = 3 /\
    count_alerts "consistent_struggle" (educator_alerts self') <> 1.
Proof.
  eexists. split; [vm_compute; reflexivity|].
  split; [reflexivity|]. split; [reflexivity|]. split; [reflexivity|].
  vm_compute. discriminate.
Qed.




(** [analyze_response_best_matches] on a mathematics response with seven
    graded references: the similarities are 0.8, 0, 0.6, 0, 0.28, 0 and 0.96,
    the score is 0.96 and the matches are the references at 0.96, 0.8 and
    0.6, in that order. *)
Lemma analyze_response_best_matches_witness :
  In (lower (StudentResponse.subject response_math)) corpus_subjects /\
  similarity_step (encode_with embed_graded) sklearn_cosine_similarity
    (StudentResponse.response_text response_math) (all_refs_of response_math)
    = Ok graded_similarities /\
  List.length graded_similarities = List.length (all_refs_of response_math) /\
  analyze_response (encode_with embed_graded) sklearn_cosine_similarity response_math
    = Ok (0.96%float,
          [ "inverse operations";
            "To solve linear equations, isolate the variable by performing inverse operations on both sides";
            "Functions represent relationships between input and output values" ]) /\
  exists (score : float) (scored : list (float * string)),
    analyze_response (encode_with embed_graded) sklearn_cosine_similarity response_math
      = Ok (score, map snd scored) /\
    In score graded_similarities /\
    Forall (fun x => np_le x score = true) graded_similarities /\
    List.length scored <= 3 /\
    Forall (fun p => py_gt (fst p) 0.3%float = true) scored /\
    StronglySorted (fun p q => py_ge (fst p) (fst q) = true) scored.
Proof.
  assert (In (lower (StudentResponse.subject response_math)) corpus_subjects) as H1
    by (simpl; auto).
  assert (similarity_step (encode_with embed_graded) sklearn_cosine_similarity
            (StudentResponse.response_text response_math) (all_refs_of response_math)
          = Ok graded_similarities) as H2 by (vm_compute; reflexivity).
  split; [exact H1|]. split; [exact H2|]. split; [reflexivity|].
  split; [vm_compute; reflexivity|].
  destruct (analyze_response_best_matches (encode_with embed_graded)
              sklearn_cosine_similarity response_math graded_similarities H1 H2)
    as [score [scored [Ha [Hin [Hup [_ [Hlen [Hgt Hsorted]]]]]]]];
    [reflexivity|].
  exists score, scored. repeat split; try assumption.
  eapply Forall_impl; [|exact Hgt]. intros p [Hp _]. exact Hp.
Defined.
(** ** More on the order of binary64 numbers *)

Lemma SFltb_SFleb_trans (x y z : spec_float) :
  SFltb x y = true -> SFleb y z = true -> SFltb x z = true.
Proof.
  unfold SFltb, SFleb.
  FloatOrder.sf_cases x m1 e1; FloatOrder.sf_cases y m2 e2; FloatOrder.sf_cases z m3 e3;
    simpl; try congruence;
    change (PosDef.Pos.compare_cont Eq) with Pos.compare;
    intros H1 H2; FloatOrder.cmp_cases; simpl in *; try congruence; try lia.
Qed.

Lemma SFleb_SFltb_trans (x y z : spec_float) :
  SFleb x y = true -> SFltb y z = true -> SFltb x z = true.
Proof.
  unfold SFltb, SFleb.
  FloatOrder.sf_cases x m1 e1; FloatOrder.sf_cases y m2 e2; FloatOrder.sf_cases z m3 e3;
    simpl; try congruence;
    change (PosDef.Pos.compare_cont Eq) with Pos.compare;
    intros H1 H2; FloatOrder.cmp_cases; simpl in *; try congruence; try lia.
Qed.

Lemma ltb_leb_trans (a b c : float) :
  (a <? b)%float = true -> (b <=? c)%float = true -> (a <? c)%float = true.
Proof. rewrite !FloatAxioms.ltb_spec, FloatAxioms.leb_spec. apply SFltb_SFleb_trans. Qed.

Lemma leb_ltb_trans (a b c : float) :
  (a <=? b)%float = true -> (b <? c)%float = true -> (a <? c)%float = true.
Proof. rewrite !FloatAxioms.ltb_spec, FloatAxioms.leb_spec. apply SFleb_SFltb_trans. Qed.

(** A comparison and its strict converse never hold together. *)
Lemma leb_ltb_exclusive (a b : float) :
  (a <=? b)%float = true -> (b <? a)%float = false.
Proof.
  intros H. destruct (FloatOrder.leb_numbers a b H) as [Na Nb].
  rewrite (FloatOrder.ltb_negb_leb a b Na Nb), H. reflexivity.
Qed.

(** A score that reaches a threshold reaches every lower one. *)
Lemma py_ge_lower (s t t' : float) :
  (t' <=? t)%float = true -> py_ge s t = true -> py_ge s t' = true.
Proof. unfold py_ge. intros Ht H. eapply FloatOrder.leb_trans; eassumption. Qed.

(** ** The feedback composer *)

Lemma determine_reward_points_range (s : float) :
  (10 <= snd (determine_reward s) <= 100)%Z.
Proof.
  rewrite determine_reward_cascade.
  destruct (py_ge s 0.9%float); [simpl; lia|].
  destruct (py_ge s 0.8%float); [simpl; lia|].
  destruct (py_ge s 0.65%float); [simpl; lia|].
  destruct (py_ge s 0.4%float); simpl; lia.
Qed.

(** What the composer returns, with the reward already looked up. *)
Lemma generate_personalized_feedback_ok (r : StudentResponse.t) (s : float)
  (matches : list string) :
  exists criteria,
    criteria_of reward_criteria (fst (determine_reward s)) = Ok criteria /\
    generate_personalized_feedback r s matches =
      Ok {| fd_feedback_text := (description criteria ++ " ") ++ band_sentence s;
            fd_strengths := band_strengths s;
            fd_improvement_areas := band_improvement_areas s;
            fd_tips := band_tips s;
            fd_reward_type := fst (determine_reward s);
            fd_points := snd (determine_reward s) |}.
Proof.
  destruct (criteria_of_determine_reward s) as [criteria Hc].
  exists criteria. split; [exact Hc|].
  unfold generate_personalized_feedback.
  destruct (determine_reward s) as [reward_type pts]. cbn [fst snd] in *.
  rewrite Hc. reflexivity.
Qed.

(** X1: [generate_personalized_feedback] never raises: the reward it
    looks up in the criteria table is always a key of the table.  The reward
    and the points it returns are those of [determine_reward], the points lie
    between 10 and 100, and every feedback names at least one strength and
    at least two tips. *)
Theorem generate_personalized_feedback_never_raises (r : StudentResponse.t)
  (s : float) (matches : list string) :
  exists data,
    generate_personalized_feedback r s matches = Ok data /\
    (fd_reward_type data, fd_points data) = determine_reward s /\
    (10 <= fd_points data <= 100)%Z /\
    1 <= List.length (fd_strengths data) /\
    2 <= List.length (fd_tips data).
Proof.
  destruct (generate_personalized_feedback_ok r s matches) as [criteria [_ H]].
  eexists. split; [exact H|]. cbn [fd_reward_type fd_points fd_strengths fd_tips].
  split; [destruct (determine_reward s); reflexivity|].
  split; [apply determine_reward_points_range|].
  unfold band_strengths, band_tips.
  destruct (py_ge s 0.8%float); [simpl; lia|].
  destruct (py_ge s 0.6%float); simpl; lia.
Qed.

(** X2: the composer lists no improvement area exactly when the reward is
    gold or platinum: the band threshold 0.8 is the gold threshold. *)
Theorem improvement_areas_empty_iff_gold_or_platinum (r : StudentResponse.t)
  (s : float) (matches : list string) :
  exists data,
    generate_personalized_feedback r s matches = Ok data /\
    (fd_improvement_areas data = [] <->
     fd_reward_type data = GOLD \/ fd_reward_type data = PLATINUM).
Proof.
  destruct (generate_personalized_feedback_ok r s matches) as [criteria [_ H]].
  eexists. split; [exact H|]. cbn [fd_improvement_areas fd_reward_type].
  rewrite determine_reward_cascade. unfold band_improvement_areas.
  pose proof (py_ge_lower s 0.9%float 0.8%float eq_refl) as L98.
  pose proof (py_ge_lower s 0.8%float 0.6%float eq_refl) as L86.
  destruct (py_ge s 0.9%float); [rewrite L98 by reflexivity; simpl; tauto|].
  destruct (py_ge s 0.8%float); [simpl; tauto|].
  destruct (py_ge s 0.6%float);
    (destruct (py_ge s 0.65%float); [|destruct (py_ge s 0.4%float)]);
    simpl; split; try discriminate; intros [?|?]; discriminate.
Qed.

(** X3: the narrative is one of five texts, chosen by the position of the
    score among 0.9, 0.8, 0.65 and 0.6: the reward description of the tier
    followed by the sentence of the band.  Between 0.6 and 0.65 the bronze
    description "Keep trying!" precedes the middle band's "You're on the
    right track!". *)
Theorem feedback_text_five_narratives (r : StudentResponse.t) (s : float)
  (matches : list string) :
  exists data,
    generate_personalized_feedback r s matches = Ok data /\
    nth_error narratives (narrative_band s) = Some (fd_feedback_text data).
Proof.
  destruct (generate_personalized_feedback_ok r s matches) as [criteria [Hc H]].
  eexists. split; [exact H|]. cbn [fd_feedback_text].
  revert Hc. rewrite determine_reward_cascade.
  unfold narrative_band, band_sentence.
  pose proof (py_ge_lower s 0.9%float 0.8%float eq_refl) as L98.
  pose proof (py_ge_lower s 0.65%float 0.6%float eq_refl) as L66.
  pose proof (py_ge_lower s 0.6%float 0.4%float eq_refl) as L64.
  change (0.9 <=? s)%float with (py_ge s 0.9%float).
  change (0.8 <=? s)%float with (py_ge s 0.8%float).
  change (0.65 <=? s)%float with (py_ge s 0.65%float).
  change (0.6 <=? s)%float with (py_ge s 0.6%float).
  destruct (py_ge s 0.9%float).
  { rewrite L98 by reflexivity. simpl. intros [= <-]. reflexivity. }
  destruct (py_ge s 0.8%float).
  { simpl. intros [= <-]. reflexivity. }
  destruct (py_ge s 0.65%float).
  { rewrite L66 by reflexivity. simpl. intros [= <-]. reflexivity. }
  destruct (py_ge s 0.6%float).
  { rewrite L64 by reflexivity. simpl. intros [= <-]. reflexivity. }
  destruct (py_ge s 0.4%float); simpl; intros [= <-]; reflexivity.
Qed.

(** ** Recording: one call of [generate_feedback] *)

Lemma last_n_snoc {A : Type} (n : nat) (l : list A) (a : A) :
  last_n (S n) (l ++ [a]) = (last_n n l ++ [a])%list.
Proof.
  unfold last_n. rewrite length_app. cbn [List.length].
  replace (List.length l + 1 - S n) with (List.length l - n) by lia.
  apply skipn_app_le. lia.
Qed.

Lemma recent_scores_of_snoc (n : nat) (history : list Feedback.t) (f : Feedback.t) :
  recent_scores_of (S n) (history ++ [f]) (Feedback.student_id f) =
  (recent_scores_of n history (Feedback.student_id f)
   ++ [Feedback.similarity_score f])%list.
Proof.
  unfold recent_scores_of. rewrite last_n_snoc, filter_app, map_app.
  cbn [filter]. rewrite String.eqb_refl. reflexivity.
Qed.

Lemma count_alerts_app (alert_type : string) (l1 l2 : list EducatorAlert.t) :
  count_alerts alert_type (l1 ++ l2) =
  count_alerts alert_type l1 + count_alerts alert_type l2.
Proof. unfold count_alerts. rewrite filter_app, length_app. reflexivity. Qed.

Section RecordingMore.

Variable encode : list string -> result (list (list float)).
Variable cosine_similarity :
  list (list float) -> list (list float) -> result (list (list float)).
Variable strftime : datetime -> string.

#[local] Abbreviation analyze := (analyze_response encode cosine_similarity).
#[local] Abbreviation record := (generate_feedback encode cosine_similarity strftime).
#[local] Abbreviation alerts_for := (new_alerts strftime).
#[local] Abbreviation reached := (reachable encode cosine_similarity strftime).

(** The record and the state one call leaves, field by field. *)
Lemma generate_feedback_record (now : datetime) (r : StudentResponse.t)
  (self : FeedbackGenerator) (s : float) (matches : list string) :
  analyze r = Ok (s, matches) ->
  exists f,
    record now r self =
      Ok (f, {| feedback_history := (feedback_history self ++ [f])%list;
                educator_alerts :=
                  (educator_alerts self
                   ++ alerts_for now r s (feedback_history self ++ [f]))%list |})
    /\ Feedback.response_id f = "resp_" ++ strftime now
    /\ Feedback.student_id f = StudentResponse.student_id r
    /\ Feedback.similarity_score f = s
    /\ Feedback.timestamp f = now
    /\ (Feedback.reward_type f, Feedback.points_earned f) = determine_reward s
    /\ Feedback.strengths f = band_strengths s
    /\ Feedback.improvement_areas f = band_improvement_areas s
    /\ Feedback.personalized_tips f = band_tips s.
Proof.
  intros Ha. unfold generate_feedback. rewrite Ha. cbn [bind].
  destruct (generate_personalized_feedback_ok r s matches) as [criteria [_ Hd]].
  rewrite Hd. cbn [bind try_except _check_for_educator_alerts
                   feedback_history educator_alerts].
  eexists. split; [reflexivity|]. cbn.
  repeat split; try reflexivity. destruct (determine_reward s); reflexivity.
Qed.

(** A successful call, read backwards. *)
Lemma generate_feedback_inversion (now : datetime) (r : StudentResponse.t)
  (self self' : FeedbackGenerator) (f : Feedback.t) :
  record now r self = Ok (f, self') ->
  feedback_history self' = (feedback_history self ++ [f])%list /\
  educator_alerts self' =
    (educator_alerts self
     ++ alerts_for now r (Feedback.similarity_score f)
          (feedback_history self ++ [f]))%list /\
  Feedback.student_id f = StudentResponse.student_id r /\
  Feedback.timestamp f = now /\
  (Feedback.reward_type f, Feedback.points_earned f)
    = determine_reward (Feedback.similarity_score f) /\
  exists matches, analyze r = Ok (Feedback.similarity_score f, matches).
Proof.
  intros H. destruct (analyze_response_total encode cosine_similarity r) as [s [m Ha]].
  destruct (generate_feedback_record now r self s m Ha)
    as [f' [Hf [_ [Hid [Hs [Ht [Hr _]]]]]]].
  rewrite Hf in H. injection H as <- <-. cbn [feedback_history educator_alerts].
  rewrite Hs. repeat split; try assumption. exists m. exact Ha.
Qed.

(** The alerts of one call: at most two, well formed, about the student. *)
Lemma new_alerts_shape (now : datetime) (r : StudentResponse.t) (s : float)
  (history : list Feedback.t) :
  List.length (alerts_for now r s history) <= 2 /\
  Forall (fun alert => well_formed_alert alert /\
                       EducatorAlert.student_id alert = StudentResponse.student_id r /\
                       EducatorAlert.timestamp alert = now)
    (alerts_for now r s history) /\
  count_alerts "low_performance" (alerts_for now r s history)
    = (if py_lt s 0.3%float then 1 else 0) /\
  count_alerts "consistent_struggle" (alerts_for now r s history)
    = (if (Nat.leb 3 (List.length
                        (recent_scores_of 5 history (StudentResponse.student_id r)))
           && forallb (fun score => py_lt score 0.5%float)
                (recent_scores_of 5 history (StudentResponse.student_id r)))%bool
       then 1 else 0).
Proof.
  unfold new_alerts, well_formed_alert.
  destruct (py_lt s 0.3%float); destruct (_ && _)%bool; cbn;
    (split; [lia|]); (split; [|split; reflexivity]);
    repeat (constructor;
            [split; [split; [reflexivity|
                             first [left; split; reflexivity
                                   |right; split; reflexivity]]
                    |split; reflexivity]|]);
    constructor.
Qed.

(** X4: [generate_feedback] never raises, whatever the embedding model and
    the similarity routine do.  It appends exactly one record to the history
    and at most two alerts to the alert list, and leaves every earlier record
    and alert in place; the record carries the student id of the response,
    the score [analyze_response] returned and the clock reading, and the new
    alerts concern that student. *)
Theorem generate_feedback_appends_one_record (now : datetime)
  (r : StudentResponse.t) (self : FeedbackGenerator) :
  exists f added,
    record now r self =
      Ok (f, {| feedback_history := (feedback_history self ++ [f])%list;
                educator_alerts := (educator_alerts self ++ added)%list |}) /\
    Feedback.student_id f = StudentResponse.student_id r /\
    Feedback.timestamp f = now /\
    (exists matches, analyze r = Ok (Feedback.similarity_score f, matches)) /\
    List.length added <= 2 /\
    Forall (fun alert =>
              EducatorAlert.student_id alert = StudentResponse.student_id r)
      added.
Proof.
  destruct (analyze_response_total encode cosine_similarity r) as [s [m Ha]].
  destruct (generate_feedback_record now r self s m Ha)
    as [f [Hf [_ [Hid [Hs [Ht _]]]]]].
  exists f, (alerts_for now r s (feedback_history self ++ [f])).
  split; [exact Hf|]. split; [exact Hid|]. split; [exact Ht|].
  split; [exists m; rewrite Hs; exact Ha|].
  destruct (new_alerts_shape now r s (feedback_history self ++ [f])) as [L [F _]].
  split; [exact L|]. eapply Forall_impl; [|exact F]. cbn. tauto.
Qed.

(** The scores the consistent-struggle rule looks at, in terms of the
    history before the call: the student's records among the previous four,
    then the new score. *)
Lemma struggle_window (history : list Feedback.t) (f : Feedback.t) :
  recent_scores_of 5 (history ++ [f]) (Feedback.student_id f) =
  (map Feedback.similarity_score
     (records_of (Feedback.student_id f) (last_n 4 history))
   ++ [Feedback.similarity_score f])%list.
Proof. apply recent_scores_of_snoc. Qed.

Lemma forallb_map_compose {A B : Type} (p : B -> bool) (g : A -> B) (l : list A) :
  forallb p (map g l) = forallb (fun a => p (g a)) l.
Proof. induction l as [|a l IH]; simpl; [reflexivity|]. rewrite IH. reflexivity. Qed.

Lemma py_lt_03_05 (s : float) : py_lt s 0.3%float = true -> py_lt s 0.5%float = true.
Proof.
  unfold py_lt. intros H. apply (ltb_leb_trans s 0.3%float 0.5%float H). reflexivity.
Qed.

(** X5: a score that is not below 0.5 raises no alert: the call appends
    its record and leaves the alert list as it was.  (The new record is
    always inside the window of the consistent-struggle rule.) *)
Theorem no_alert_unless_score_below_half (now : datetime)
  (r : StudentResponse.t) (self : FeedbackGenerator) :
  exists f added,
    record now r self =
      Ok (f, {| feedback_history := (feedback_history self ++ [f])%list;
                educator_alerts := (educator_alerts self ++ added)%list |}) /\
    (py_lt (Feedback.similarity_score f) 0.5%float = false -> added = []).
Proof.
  destruct (analyze_response_total encode cosine_similarity r) as [s [m Ha]].
  destruct (generate_feedback_record now r self s m Ha)
    as [f [Hf [_ [Hid [Hs _]]]]].
  exists f, (alerts_for now r s (feedback_history self ++ [f])).
  split; [exact Hf|]. rewrite Hs. intros Hhalf.
  unfold new_alerts. rewrite <- Hid, struggle_window, Hs.
  rewrite forallb_app. cbn [forallb]. rewrite Hhalf.
  rewrite !andb_false_r. cbn [andb].
  destruct (py_lt s 0.3%float) eqn:H3; [|reflexivity].
  apply py_lt_03_05 in H3. congruence.
Qed.

(** X6: a call appends one low-performance alert when the recorded score
    is below 0.3 and none otherwise, and never more than one
    consistent-struggle alert. *)
Theorem low_performance_alert_iff_below_03 (now : datetime)
  (r : StudentResponse.t) (self : FeedbackGenerator) :
  exists f added,
    record now r self =
      Ok (f, {| feedback_history := (feedback_history self ++ [f])%list;
                educator_alerts := (educator_alerts self ++ added)%list |}) /\
    count_alerts "low_performance" added
      = (if (Feedback.similarity_score f <? 0.3)%float then 1 else 0) /\
    count_alerts "consistent_struggle" added <= 1 /\
    List.length added
      = count_alerts "low_performance" added
        + count_alerts "consistent_struggle" added.
Proof.
  destruct (analyze_response_total encode cosine_similarity r) as [s [m Ha]].
  destruct (generate_feedback_record now r self s m Ha)
    as [f [Hf [_ [Hid [Hs _]]]]].
  exists f, (alerts_for now r s (feedback_history self ++ [f])).
  split; [exact Hf|]. rewrite Hs.
  destruct (new_alerts_shape now r s (feedback_history self ++ [f]))
    as [_ [_ [Hlow Hstr]]].
  split; [exact Hlow|]. rewrite Hlow, Hstr.
  unfold new_alerts. change (s <? 0.3)%float with (py_lt s 0.3%float).
  destruct (py_lt s 0.3%float); destruct (_ && _)%bool; cbn; lia.
Qed.

(** X7: the consistent-struggle rule sees only the last five records of
    the whole history.  A call appends that alert exactly when at least two
    of the four records before it belong to the student, all of these score
    below 0.5, and the new score is below 0.5 too; older records of the
    student, however low, do not count, and with three or more records of
    other students among the previous four the alert cannot fire. *)
Theorem consistent_struggle_alert_window (now : datetime)
  (r : StudentResponse.t) (self : FeedbackGenerator) :
  exists f added,
    record now r self =
      Ok (f, {| feedback_history := (feedback_history self ++ [f])%list;
                educator_alerts := (educator_alerts self ++ added)%list |}) /\
    let previous :=
      records_of (StudentResponse.student_id r) (last_n 4 (feedback_history self)) in
    count_alerts "consistent_struggle" added
      = (if (Nat.leb 2 (List.length previous)
             && forallb (fun g => (Feedback.similarity_score g <? 0.5)%float) previous
             && (Feedback.similarity_score f <? 0.5)%float)%bool
         then 1 else 0) /\
    (List.length previous < 2 -> count_alerts "consistent_struggle" added = 0).
Proof.
  destruct (analyze_response_total encode cosine_similarity r) as [s [m Ha]].
  destruct (generate_feedback_record now r self s m Ha)
    as [f [Hf [_ [Hid [Hs _]]]]].
  exists f, (alerts_for now r s (feedback_history self ++ [f])).
  split; [exact Hf|]. cbv zeta.
  destruct (new_alerts_shape now r s (feedback_history self ++ [f]))
    as [_ [_ [_ Hstr]]].
  rewrite Hstr, <- Hid, struggle_window, Hs.
  rewrite length_app, length_map, forallb_app, forallb_map_compose.
  cbn [List.length forallb].
  rewrite andb_true_r. clear Hstr.
  set (n := List.length
              (records_of (Feedback.student_id f) (last_n 4 (feedback_history self)))).
  replace (Nat.leb 3 (n + 1)) with (Nat.leb 2 n)
    by (destruct n as [|[|[|n']]]; reflexivity).
  rewrite andb_assoc. split; [reflexivity|].
  intros Hfew. apply Nat.leb_gt in Hfew. rewrite Hfew. reflexivity.
Qed.

(** *** What holds of every reachable generator *)

Lemma run_script_reachable (script : list (datetime * StudentResponse.t))
  (self self' : FeedbackGenerator) :
  reached self ->
  run_script encode cosine_similarity strftime script self = Ok self' ->
  reached self'.
Proof.
  revert self. induction script as [|[now r] script IH]; intros self R; cbn [run_script].
  - intros [= <-]. exact R.
  - destruct (record now r self) as [[f self1]|e] eqn:Hrec; cbn [bind]; [|discriminate].
    apply IH. eapply reachable_record; eassumption.
Qed.

Lemma reached_records (self : FeedbackGenerator) :
  reached self ->
  Forall (fun f => (Feedback.reward_type f, Feedback.points_earned f)
                   = determine_reward (Feedback.similarity_score f))
    (feedback_history self).
Proof.
  induction 1 as [|now r self self' f _ IH Hrec]; [constructor|].
  destruct (generate_feedback_inversion now r self self' f Hrec)
    as [-> [_ [_ [_ [Hr _]]]]].
  apply Forall_app. split; [exact IH|]. constructor; [exact Hr|constructor].
Qed.

(** X8: in every reachable generator each stored record carries the reward
    and the points [determine_reward] gives for its stored score, so tier,
    points and score never disagree, and its points lie between 10 and 100. *)
Theorem stored_records_consistent (self : FeedbackGenerator) :
  reached self ->
  Forall (fun f => (Feedback.reward_type f, Feedback.points_earned f)
                   = determine_reward (Feedback.similarity_score f) /\
                   (10 <= Feedback.points_earned f <= 100)%Z)
    (feedback_history self).
Proof.
  intros R. eapply Forall_impl; [|exact (reached_records self R)].
  intros f Hf. split; [exact Hf|].
  pose proof (determine_reward_points_range (Feedback.similarity_score f)) as P.
  rewrite <- Hf in P. exact P.
Qed.

(** X9: in every reachable generator each alert is well formed (action
    required; low performance with high severity, or consistent struggle
    with medium severity) and names a student who has a record in the
    history, and there are at most two alerts per record; so a generator
    without records has no alerts. *)
Theorem stored_alerts_well_formed (self : FeedbackGenerator) :
  reached self ->
  Forall (fun alert =>
            well_formed_alert alert /\
            In (EducatorAlert.student_id alert)
               (map Feedback.student_id (feedback_history self)))
    (educator_alerts self) /\
  List.length (educator_alerts self) <= 2 * List.length (feedback_history self).
Proof.
  induction 1 as [|now r self self' f _ [IHw IHl] Hrec].
  - split; [constructor|simpl; lia].
  - destruct (generate_feedback_inversion now r self self' f Hrec)
      as [-> [-> [Hid _]]].
    destruct (new_alerts_shape now r (Feedback.similarity_score f)
                (feedback_history self ++ [f])) as [L [F _]].
    split.
    + apply Forall_app. split.
      * eapply Forall_impl; [|exact IHw]. intros alert [W I]. split; [exact W|].
        rewrite map_app. apply in_or_app. left. exact I.
      * eapply Forall_impl; [|exact F]. intros alert [W [I _]]. split; [exact W|].
        rewrite map_app. apply in_or_app. right. rewrite I, <- Hid. simpl. auto.
    + rewrite !length_app. cbn [List.length]. lia.
Qed.

(** *** Progress reports *)

Variable isoformat : datetime -> string.

#[local] Abbreviation progress := (get_student_progress isoformat).

Lemma index_last_snoc {A : Type} (l : list A) (a : A) : index_last (l ++ [a]) = Ok a.
Proof. unfold index_last. rewrite rev_app_distr. reflexivity. Qed.

Lemma nonempty_snoc {A : Type} (l : list A) :
  l <> [] -> exists older newest, l = (older ++ [newest])%list.
Proof.
  intros H. destruct (exists_last H) as [older [newest E]]. eauto.
Qed.

Lemma reward_counts_total (l : list Feedback.t) :
  list_sum
    (map (fun reward_type =>
            List.length
              (filter (fun f => RewardType_.eqb (Feedback.reward_type f) reward_type) l))
       RewardType_.members)
  = List.length l.
Proof.
  induction l as [|f l IH]; [reflexivity|].
  unfold RewardType_.members in *. simpl in *.
  destruct (Feedback.reward_type f); simpl; lia.
Qed.

Lemma total_points_bounds (l : list Feedback.t) (acc : Z) :
  Forall (fun f => (10 <= Feedback.points_earned f <= 100)%Z) l ->
  (acc + 10 * Z.of_nat (List.length l)
   <= fold_left (fun acc f => (acc + Feedback.points_earned f)%Z) l acc
   <= acc + 100 * Z.of_nat (List.length l))%Z.
Proof.
  intros F. revert acc. induction F as [|f l Hf _ IH]; intros acc.
  - simpl. lia.
  - cbn [fold_left List.length]. specialize (IH (acc + Feedback.points_earned f)%Z).
    lia.
Qed.

(** The report of a student who has records. *)
Lemma get_student_progress_shape (student_id : string) (self : FeedbackGenerator)
  (older : list Feedback.t) (newest : Feedback.t) :
  records_of student_id (feedback_history self) = (older ++ [newest])%list ->
  exists report,
    progress student_id self = Ok (ProgressOk report) /\
    pr_student_id report = student_id /\
    pr_total_responses report = S (List.length older) /\
    pr_latest_score report = Feedback.similarity_score newest /\
    pr_last_updated report = isoformat (Feedback.timestamp newest) /\
    pr_total_points report =
      fold_left (fun acc f => (acc + Feedback.points_earned f)%Z)
        (older ++ [newest]) 0%Z /\
    map fst (pr_reward_distribution report)
      = ["bronze"; "silver"; "gold"; "platinum"] /\
    list_sum (map snd (pr_reward_distribution report)) = S (List.length older) /\
    (older = [] -> pr_recent_improvement report = 0%float).
Proof.
  intros E. unfold get_student_progress. fold (records_of student_id (feedback_history self)).
  rewrite E.
  destruct (older ++ [newest])%list as [|f0 rest] eqn:El;
    [destruct older; discriminate|].
  rewrite <- El. rewrite map_app. cbn [map]. rewrite !index_last_snoc. cbn [bind].
  assert (exists first, index (map Feedback.similarity_score older
                               ++ [Feedback.similarity_score newest]) 0 = Ok first)
    as [first Hfirst] by (destruct older; unfold index; simpl; eauto).
  rewrite Hfirst. cbn [bind].
  eexists. split; [reflexivity|].
  cbn [pr_student_id pr_total_responses pr_latest_score pr_last_updated
       pr_total_points pr_reward_distribution pr_recent_improvement].
  split; [reflexivity|]. split; [rewrite length_app; simpl; lia|].
  split; [reflexivity|]. split; [reflexivity|]. split; [reflexivity|].
  split; [reflexivity|]. split.
  - rewrite map_map. cbn [snd]. rewrite reward_counts_total, length_app. simpl. lia.
  - intros ->. reflexivity.
Qed.

(** X10: [get_student_progress] never raises.  It returns the error
    dictionary exactly for a student without records; for any other student
    it returns a report that counts the student's records, gives the score
    and the time stamp of the newest one, lists the four tiers in the order
    bronze, silver, gold, platinum with counts that add up to the number of
    records, and reports an improvement of 0 when there is one record only. *)
Theorem get_student_progress_report (student_id : string) (self : FeedbackGenerator) :
  match records_of student_id (feedback_history self) with
  | [] =>
      progress student_id self = Ok (ProgressError "No feedback found for this student")
  | first :: rest =>
      exists report newest,
        progress student_id self = Ok (ProgressOk report) /\
        last (first :: rest) first = newest /\
        pr_total_responses report = S (List.length rest) /\
        pr_latest_score report = Feedback.similarity_score newest /\
        pr_last_updated report = isoformat (Feedback.timestamp newest) /\
        map fst (pr_reward_distribution report)
          = ["bronze"; "silver"; "gold"; "platinum"] /\
        list_sum (map snd (pr_reward_distribution report)) = S (List.length rest) /\
        (rest = [] -> pr_recent_improvement report = 0%float)
  end.
Proof.
  destruct (records_of student_id (feedback_history self)) as [|first rest] eqn:E.
  - unfold get_student_progress. fold (records_of student_id (feedback_history self)).
    rewrite E. reflexivity.
  - destruct (nonempty_snoc (first :: rest)) as [older [newest El]]; [discriminate|].
    rewrite El in E.
    destruct (get_student_progress_shape student_id self older newest E)
      as [report [Hp [_ [Hn [Hl [Hu [_ [Hk [Hs Hi]]]]]]]]].
    assert (List.length older = List.length rest) as Hlen.
    { apply (f_equal (@List.length _)) in El. rewrite length_app in El.
      simpl in El. lia. }
    exists report, newest. split; [exact Hp|].
    split; [rewrite El; apply last_last|].
    rewrite <- Hlen. repeat split; try assumption.
    intros ->. apply Hi. destruct older; [reflexivity|simpl in Hlen; lia].
Qed.

(** X11: in every reachable generator a student's total points lie between
    10 and 100 times the number of the student's responses. *)
Theorem total_points_between_10_and_100_per_response (student_id : string)
  (self : FeedbackGenerator) (report : ProgressReport) :
  reached self ->
  progress student_id self = Ok (ProgressOk report) ->
  (10 * Z.of_nat (pr_total_responses report)
   <= pr_total_points report
   <= 100 * Z.of_nat (pr_total_responses report))%Z.
Proof.
  intros R Hp.
  destruct (records_of student_id (feedback_history self)) as [|first rest] eqn:E.
  - unfold get_student_progress in Hp.
    fold (records_of student_id (feedback_history self)) in Hp.
    rewrite E in Hp. discriminate.
  - destruct (nonempty_snoc (first :: rest)) as [older [newest El]]; [discriminate|].
    rewrite El in E.
    destruct (get_student_progress_shape student_id self older newest E)
      as [report' [Hp' [_ [Hn [_ [_ [Ht _]]]]]]].
    rewrite Hp' in Hp. injection Hp as <-. rewrite Hn, Ht.
    assert (Forall (fun f => (10 <= Feedback.points_earned f <= 100)%Z)
              (older ++ [newest])) as F.
    { rewrite <- E. unfold records_of. apply Forall_forall. intros f Hf.
      apply filter_In in Hf. destruct Hf as [Hf _].
      pose proof (reached_records self R) as Q. rewrite Forall_forall in Q.
      specialize (Q f Hf).
      pose proof (determine_reward_points_range (Feedback.similarity_score f)) as P.
      rewrite <- Q in P. exact P. }
    pose proof (total_points_bounds _ 0%Z F) as B.
    rewrite length_app in B. cbn [List.length] in B.
    replace (S (List.length older)) with (List.length older + 1) by lia. lia.
Qed.

(** X12: recording and then asking: after [generate_feedback] has recorded
    a response, the progress of its student is a report, never the error
    dictionary; it counts one response more than the student had before, and
    its latest score and time stamp are those of the new record. *)
Theorem progress_after_recording (now : datetime) (r : StudentResponse.t)
  (self : FeedbackGenerator) :
  exists f self' report,
    record now r self = Ok (f, self') /\
    progress (StudentResponse.student_id r) self' = Ok (ProgressOk report) /\
    pr_total_responses report =
      S (List.length (records_of (StudentResponse.student_id r) (feedback_history self))) /\
    pr_latest_score report = Feedback.similarity_score f /\
    pr_last_updated report = isoformat now.
Proof.
  destruct (analyze_response_total encode cosine_similarity r) as [s [m Ha]].
  destruct (generate_feedback_record now r self s m Ha)
    as [f [Hf [_ [Hid [Hs [Ht _]]]]]].
  assert (records_of (StudentResponse.student_id r)
            (feedback_history self ++ [f])
          = (records_of (StudentResponse.student_id r) (feedback_history self) ++ [f])%list)
    as E.
  { unfold records_of. rewrite filter_app. cbn [filter].
    rewrite Hid, String.eqb_refl. reflexivity. }
  destruct (get_student_progress_shape (StudentResponse.student_id r)
              {| feedback_history := (feedback_history self ++ [f])%list;
                 educator_alerts :=
                   (educator_alerts self
                    ++ alerts_for now r s (feedback_history self ++ [f]))%list |}
              _ f E) as [report [Hp [_ [Hn [Hl [Hu _]]]]]].
  eexists f, _, report. split; [exact Hf|]. split; [exact Hp|].
  split; [exact Hn|]. split; [exact Hl|]. rewrite Hu, Ht. reflexivity.
Qed.

(** X13: recording a response changes the progress of no other student. *)
Theorem progress_of_other_students_unchanged (now : datetime)
  (r : StudentResponse.t) (self : FeedbackGenerator) :
  exists f self',
    record now r self = Ok (f, self') /\
    forall student_id,
      student_id <> StudentResponse.student_id r ->
      progress student_id self' = progress student_id self.
Proof.
  destruct (analyze_response_total encode cosine_similarity r) as [s [m Ha]].
  destruct (generate_feedback_record now r self s m Ha)
    as [f [Hf [_ [Hid _]]]].
  eexists f, _. split; [exact Hf|].
  intros student_id Hne. unfold get_student_progress.
  cbn [feedback_history]. rewrite filter_app. cbn [filter].
  destruct (String.eqb_spec (Feedback.student_id f) student_id) as [E|_];
    [congruence|].
  rewrite app_nil_r. reflexivity.
Qed.

(** *** The dashboard *)

#[local] Abbreviation dashboard := (get_educator_dashboard isoformat).

Lemma last_n_length {A : Type} (n : nat) (l : list A) : List.length (last_n n l) <= n.
Proof. unfold last_n. rewrite length_skipn. lia. Qed.

Lemma same_elements_same_length (l1 l2 : list string) :
  NoDup l1 -> NoDup l2 -> (forall x, In x l1 <-> In x l2) ->
  List.length l1 = List.length l2.
Proof.
  intros N1 N2 H. apply Nat.le_antisymm; apply NoDup_incl_length; try assumption;
    intros x Hx; apply H; exact Hx.
Qed.

Lemma nodup_snoc_length (l : list string) (x : string) :
  (In x l -> List.length (nodup string_dec (l ++ [x])) = List.length (nodup string_dec l)) /\
  (~ In x l ->
   List.length (nodup string_dec (l ++ [x])) = S (List.length (nodup string_dec l))).
Proof.
  split; intros Hx.
  - apply same_elements_same_length; try apply NoDup_nodup.
    intros y. rewrite !nodup_In, in_app_iff. simpl. intuition (subst; auto).
  - change (S (List.length (nodup string_dec l)))
      with (List.length (x :: nodup string_dec l)).
    apply same_elements_same_length; try apply NoDup_nodup.
    + constructor; [rewrite nodup_In; exact Hx|apply NoDup_nodup].
    + intros y. simpl. rewrite !nodup_In, in_app_iff. simpl. intuition.
Qed.

(** X14: the class overview is bounded by the history: there are no more
    students than responses, and no more students needing attention than
    students.  Since the dashboard looks at the last three records of the
    whole history only, every student it lists as struggling has a record
    among these three, the list has no repetition, and at most three students
    are ever listed; a generator without records gives an overview of zeros. *)
Theorem dashboard_overview_bounds (now : datetime) (self : FeedbackGenerator) :
  let board := dashboard now self in
  let overview := class_overview board in
  total_responses overview = List.length (feedback_history self) /\
  total_students overview <= total_responses overview /\
  students_needing_attention overview = List.length (struggling_students board) /\
  students_needing_attention overview <= total_students overview /\
  students_needing_attention overview <= 3 /\
  NoDup (struggling_students board) /\
  Forall (fun student_id =>
            In student_id (map Feedback.student_id (last_n 3 (feedback_history self))))
    (struggling_students board) /\
  (feedback_history self = [] ->
   overview = {| total_students := 0; total_responses := 0;
                 class_average_score := 0%float;
                 students_needing_attention := 0 |}).
Proof.
  cbv zeta. unfold get_educator_dashboard.
  cbn [class_overview total_students total_responses students_needing_attention
       struggling_students].
  set (ids := map Feedback.student_id (feedback_history self)).
  set (flagged := filter _ (nodup string_dec ids)).
  assert (NoDup flagged) as Nf by (apply NoDup_filter, NoDup_nodup).
  assert (Forall (fun student_id =>
                    In student_id
                       (map Feedback.student_id (last_n 3 (feedback_history self))))
            flagged) as Ff.
  { apply Forall_forall. intros student_id Hs. apply filter_In in Hs.
    destruct Hs as [_ Hs]. unfold recent_scores_of in Hs.
    destruct (filter _ (last_n 3 (feedback_history self))) as [|f rest] eqn:E;
      [discriminate|].
    assert (In f (f :: rest)) as Hf by (left; reflexivity).
    rewrite <- E in Hf. apply filter_In in Hf. destruct Hf as [Hin Heq].
    apply String.eqb_eq in Heq. rewrite <- Heq. apply in_map. exact Hin. }
  split; [reflexivity|]. split.
  { unfold ids. rewrite <- (length_map Feedback.student_id (feedback_history self)).
    apply NoDup_incl_length; [apply NoDup_nodup|].
    intros x Hx. apply nodup_In in Hx. exact Hx. }
  split; [reflexivity|]. split; [apply filter_length_le|]. split.
  { transitivity
      (List.length (map Feedback.student_id (last_n 3 (feedback_history self)))).
    - apply NoDup_incl_length; [exact Nf|]. intros x Hx.
      rewrite Forall_forall in Ff. apply Ff. exact Hx.
    - rewrite length_map. apply last_n_length. }
  split; [exact Nf|]. split; [exact Ff|].
  intros E. subst flagged ids. rewrite E. reflexivity.
Qed.

(** X15: recording one response raises the dashboard's [total_responses]
    by exactly one, and its [total_students] by one when the student is new
    and by nothing when the student already has a record. *)
Theorem dashboard_after_recording (now later : datetime) (r : StudentResponse.t)
  (self : FeedbackGenerator) :
  exists f self',
    record now r self = Ok (f, self') /\
    let before := class_overview (dashboard later self) in
    let after := class_overview (dashboard later self') in
    total_responses after = S (total_responses before) /\
    (In (StudentResponse.student_id r)
        (map Feedback.student_id (feedback_history self)) ->
     total_students after = total_students before) /\
    (~ In (StudentResponse.student_id r)
          (map Feedback.student_id (feedback_history self)) ->
     total_students after = S (total_students before)).
Proof.
  destruct (analyze_response_total encode cosine_similarity r) as [s [m Ha]].
  destruct (generate_feedback_record now r self s m Ha)
    as [f [Hf [_ [Hid _]]]].
  eexists f, _. split; [exact Hf|]. cbv zeta. unfold get_educator_dashboard.
  cbn [class_overview total_students total_responses feedback_history].
  rewrite length_app, map_app. cbn [List.length map]. rewrite Hid.
  split; [lia|]. apply nodup_snoc_length.
Qed.

End RecordingMore.

(** ** The best matches *)

Lemma StronglySorted_app_cross {A : Type} (R : A -> A -> Prop) (l1 l2 : list A) :
  StronglySorted R (l1 ++ l2) ->
  forall a b, In a l1 -> In b l2 -> R a b.
Proof.
  induction l1 as [|x l1 IH]; simpl; intros S a b Ha Hb; [tauto|].
  inversion S as [|? ? S' F]; subst. destruct Ha as [<-|Ha].
  - rewrite Forall_forall in F. apply F. apply in_or_app. right. exact Hb.
  - eapply IH; eassumption.
Qed.

Lemma NoDup_skipn {A : Type} (n : nat) (l : list A) : NoDup l -> NoDup (skipn n l).
Proof.
  intros N. rewrite <- (firstn_skipn n l) in N.
  apply NoDup_app_remove_l in N. exact N.
Qed.

Lemma combine_seq_In (l : list float) (start i : nat) (v : float) :
  nth_error l i = Some v ->
  In (v, start + i) (combine l (seq start (List.length l))).
Proof.
  revert start i. induction l as [|x l IH]; intros start [|i]; simpl; try discriminate.
  - intros [= ->]. left. rewrite Nat.add_0_r. reflexivity.
  - intros H. right. replace (start + S i) with (S start + i) by lia.
    apply IH. exact H.
Qed.

Lemma combine_seq_snd (l : list float) (start : nat) :
  map snd (combine l (seq start (List.length l))) = seq start (List.length l).
Proof.
  revert start. induction l as [|x l IH]; intros start; simpl; [reflexivity|].
  rewrite IH. reflexivity.
Qed.

(** The sorted pairs hold every index of the list once. *)
Lemma sorted_indices (similarities : list float) :
  NoDup (np_argsort similarities) /\
  (forall i, In i (np_argsort similarities) <-> i < List.length similarities) /\
  List.length (np_argsort similarities) = List.length similarities.
Proof.
  unfold np_argsort.
  destruct (sort_by_value_spec
              (combine similarities (seq 0 (List.length similarities)))) as [_ [I L]].
  assert (forall i,
             In i (map snd (sort_by_value
                              (combine similarities (seq 0 (List.length similarities)))))
             <-> i < List.length similarities) as Hin.
  { intros i. rewrite in_map_iff. split.
    - intros [[v j] [<- H]]. apply I in H. apply In_combine_seq in H.
      destruct H as [_ H]. apply nth_error_Some. rewrite Nat.sub_0_r in H.
      simpl. congruence.
    - intros H. apply nth_error_Some in H.
      destruct (nth_error similarities i) as [v|] eqn:E; [|congruence].
      exists (v, i). split; [reflexivity|]. apply I.
      apply (combine_seq_In similarities 0 i v E). }
  assert (List.length
            (map snd (sort_by_value
                        (combine similarities (seq 0 (List.length similarities)))))
          = List.length similarities) as Hlen.
  { rewrite length_map, L, length_combine, length_seq. lia. }
  split; [|split; [exact Hin|exact Hlen]].
  apply (NoDup_incl_NoDup (seq_NoDup (List.length similarities) 0)).
  - rewrite Hlen, length_seq. lia.
  - intros i Hi. apply in_seq in Hi. apply Hin. lia.
Qed.

(** The similarity at an index; NaN stands for an index out of range. *)
Lemma sorted_values (similarities : list float) :
  StronglySorted
    (fun i j => np_le (nth i similarities nan) (nth j similarities nan) = true)
    (np_argsort similarities).
Proof.
  unfold np_argsort.
  destruct (sort_by_value_spec
              (combine similarities (seq 0 (List.length similarities)))) as [S [I _]].
  apply StronglySorted_map.
  apply (StronglySorted_weaken by_value _
           (fun p => nth_error similarities (snd p) = Some (fst p))).
  - intros [v i] [w j] Hv Hw H. cbn [fst snd] in *. unfold by_value in H. cbn in H.
    rewrite (nth_error_nth _ _ _ Hv), (nth_error_nth _ _ _ Hw). exact H.
  - apply Forall_forall. intros [v i] H. apply I in H. apply In_combine_seq in H.
    destruct H as [_ H]. rewrite Nat.sub_0_r in H. exact H.
  - exact S.
Qed.

(** X16: [np.argsort(similarities)[-3:][::-1]] yields three indices, or as
    many as there are similarities: distinct, within range, in descending
    order of similarity (NaN counting as the largest value, as numpy sorts
    it), and every index left out has a similarity that none of the chosen
    ones falls below. *)
Theorem top_three_are_the_largest (similarities : list float) :
  List.length (top_three similarities) = Nat.min 3 (List.length similarities) /\
  NoDup (top_three similarities) /\
  Forall (fun i => i < List.length similarities) (top_three similarities) /\
  StronglySorted
    (fun i j => np_le (nth j similarities nan) (nth i similarities nan) = true)
    (top_three similarities) /\
  (forall j,
      j < List.length similarities -> ~ In j (top_three similarities) ->
      Forall (fun i => np_le (nth j similarities nan) (nth i similarities nan) = true)
        (top_three similarities)).
Proof.
  destruct (sorted_indices similarities) as [N [I L]].
  pose proof (sorted_values similarities) as S.
  unfold top_three, last_n.
  set (sorted := np_argsort similarities) in *.
  set (k := List.length sorted - 3).
  split; [rewrite length_rev, length_skipn; unfold k; lia|].
  split; [apply NoDup_rev, NoDup_skipn; exact N|].
  split.
  { apply Forall_forall. intros i Hi. apply in_rev in Hi. apply I.
    rewrite <- (firstn_skipn k sorted). apply in_or_app. right. exact Hi. }
  split.
  { apply (StronglySorted_rev
             (fun i j => np_le (nth i similarities nan) (nth j similarities nan) = true)).
    apply StronglySorted_skipn. exact S. }
  intros j Hj Hout. apply Forall_forall. intros i Hi. apply in_rev in Hi.
  rewrite <- (firstn_skipn k sorted) in S.
  apply (StronglySorted_app_cross _ _ _ S); [|exact Hi].
  apply I in Hj. rewrite <- (firstn_skipn k sorted) in Hj.
  apply in_app_or in Hj. destruct Hj as [Hj|Hj]; [exact Hj|].
  exfalso. apply Hout. apply in_rev. rewrite rev_involutive. exact Hj.
Qed.

(** The first of the top pairs is a largest similarity. *)
Lemma top_pairs_head (similarities : list float) :
  similarities <> [] ->
  exists best rest,
    top_pairs similarities = best :: rest /\
    In (fst best) similarities /\
    Forall (fun x => np_le x (fst best) = true) similarities.
Proof.
  intros Hne. unfold top_pairs.
  destruct (sort_by_value_spec
              (combine similarities (seq 0 (List.length similarities)))) as [S [I L]].
  set (sorted := sort_by_value _) in *.
  assert (sorted <> []) as Hs.
  { intros E. rewrite E in L. rewrite length_combine, length_seq in L.
    destruct similarities; [congruence|simpl in L; lia]. }
  destruct (exists_last Hs) as [front [best E]]. rewrite E in *.
  exists best, (rev (last_n 2 front)).
  split; [rewrite last_n_snoc, rev_app_distr; reflexivity|].
  assert (forall p, In p (front ++ [best]) -> np_le (fst p) (fst best) = true) as Hall.
  { intros p Hp. apply in_app_or in Hp. destruct Hp as [Hp|[<-|[]]].
    - apply (StronglySorted_app_cross by_value _ _ S p best Hp). left. reflexivity.
    - apply FloatOrder.np_le_refl. }
  split.
  - assert (In best (front ++ [best])) as Hb by (apply in_or_app; right; left; reflexivity).
    apply I in Hb. destruct best as [v i]. apply In_combine_seq in Hb.
    destruct Hb as [_ Hb]. eapply nth_error_In. exact Hb.
  - apply Forall_forall. intros x Hx. apply In_nth_error in Hx. destruct Hx as [i Hi].
    apply (Hall (x, i)). apply I. apply (combine_seq_In similarities 0 i x Hi).
Qed.

Section ScorerMore.

Variable encode : list string -> result (list (list float)).
Variable cosine_similarity :
  list (list float) -> list (list float) -> result (list (list float)).

#[local] Abbreviation analyze := (analyze_response encode cosine_similarity).

(** The successful path of [analyze_response], step by step. *)
Lemma analyze_response_success (r : StudentResponse.t) (similarities : list float) :
  In (lower (StudentResponse.subject r)) corpus_subjects ->
  similarity_step encode cosine_similarity
    (StudentResponse.response_text r) (all_refs_of r) = Ok similarities ->
  List.length similarities = List.length (all_refs_of r) ->
  similarities <> [] /\
  exists score scored,
    analyze r = Ok (score, map snd scored) /\
    np_max similarities = Ok score /\
    map fst scored
      = map fst (filter (fun p => py_gt (fst p) 0.3%float) (top_pairs similarities)).
Proof.
  intros Hin Hstep Hlen.
  pose proof corpus_subjects_lower as F1. pose proof corpus_subjects_refs as F2.
  rewrite Forall_forall in F1, F2.
  destruct (F1 _ Hin) as [_ Hne]. specialize (F2 _ Hin).
  assert (all_refs_of r <> []) as Hrefs
    by (unfold all_refs_of; apply add_keywords_nonempty; exact F2).
  assert (similarities <> []) as Hsims.
  { intros ->. destruct (all_refs_of r); simpl in Hlen; congruence. }
  split; [exact Hsims|].
  destruct (np_max_nonempty similarities Hsims) as [score Hmax].
  destruct (top_pairs_spec similarities) as [_ [_ Hnth]].
  destruct (select_matches_pairs (all_refs_of r) similarities (top_pairs similarities)
              Hlen Hnth) as [scored [Hsel [Hfst _]]].
  exists score, scored. split; [|split; [exact Hmax|exact Hfst]].
  unfold analyze_response, analyze_response_body.
  unfold all_refs_of in Hstep, Hsel.
  destruct (dict_get reference_answers (lower (StudentResponse.subject r)))
    as [|topic topics] eqn:Hd; [congruence|].
  rewrite Hstep. cbn [bind]. rewrite Hmax. cbn [bind].
  rewrite top_three_pairs, Hsel. reflexivity.
Qed.

(** The scoring of a response whose subject has references is
    [score_against] under the exception handler. *)
Lemma analyze_response_known_subject (r : StudentResponse.t) :
  dict_get reference_answers (lower (StudentResponse.subject r)) <> [] ->
  analyze r
  = try_except
      (score_against encode cosine_similarity
         (StudentResponse.response_text r) (all_refs_of r))
      (fun _ => Ok (0.0%float, [])).
Proof.
  intros Hne. unfold analyze_response, analyze_response_body, score_against, all_refs_of.
  destruct (dict_get reference_answers (lower (StudentResponse.subject r)))
    as [|topic topics]; [congruence|reflexivity].
Qed.

(** A score above 0.3 comes with a match: the first of the top three
    indices is the place of a largest similarity, which passes the test
    [similarities[i] > 0.3]. *)
Lemma score_against_matches (text : string) (all_refs : list string)
  (score : float) (matches : list string) :
  score_against encode cosine_similarity text all_refs = Ok (score, matches) ->
  py_gt score 0.3%float = true ->
  matches <> [].
Proof.
  unfold score_against. intros H Hgt.
  destruct (similarity_step encode cosine_similarity text all_refs)
    as [similarities|e]; cbn [bind] in H; [|discriminate].
  destruct (np_max similarities) as [m|e] eqn:Hmax; cbn [bind] in H; [|discriminate].
  destruct (select_matches all_refs similarities (top_three similarities))
    as [best_matches|e] eqn:Hsel; cbn [bind] in H; [|discriminate].
  injection H as -> ->.
  destruct (np_max_spec similarities score Hmax) as [Hscore Hupper].
  assert (similarities <> []) as Hne by (intros ->; destruct Hscore).
  destruct (top_pairs_head similarities Hne) as [best [rest [Ht [Hb Hall]]]].
  destruct (top_pairs_spec similarities) as [_ [_ Hnth]].
  rewrite Ht in Hnth. inversion Hnth as [|? ? Hbest_at _]; subst.
  rewrite Forall_forall in Hall. specialize (Hall score Hscore).
  rewrite Forall_forall in Hupper. specialize (Hupper (fst best) Hb).
  assert (is_nan score = false) as Ns by (eapply gt_number; exact Hgt).
  assert ((fst best <=? score)%float = true) as Hle
    by (apply FloatOrder.np_le_leb; assumption).
  destruct (FloatOrder.leb_numbers _ _ Hle) as [Nb _].
  assert ((score <=? fst best)%float = true) as Hge
    by (apply FloatOrder.np_le_leb; assumption).
  assert (py_gt (fst best) 0.3%float = true) as Hbest
    by (unfold py_gt in *; eapply ltb_leb_trans; eassumption).
  rewrite top_three_pairs, Ht in Hsel. cbn [map select_matches] in Hsel.
  unfold index at 1 in Hsel. rewrite Hbest_at in Hsel. cbn [bind] in Hsel.
  rewrite Hbest in Hsel.
  destruct (index all_refs (snd best)) as [ref|e]; cbn [bind] in Hsel; [|discriminate].
  destruct (select_matches all_refs similarities (map snd rest)) as [more|e];
    cbn [bind] in Hsel; [|discriminate].
  injection Hsel as <-. discriminate.
Qed.

(** C10 (as the code behaves): the subject is looked up without regard to
    the case of ASCII letters.  Replacing the subject of a response by a
    string that differs from it only in the case of ASCII letters leaves the
    result of [analyze_response] unchanged; and when the subject matches a
    corpus key up to the case of ASCII letters, the response is scored
    against the reference answers of that key (with the fallback (0.0, [])
    when the scoring raises), and the result is never the unknown-subject
    default (0.5, []). *)
Theorem analyze_response_case_insensitive (r : StudentResponse.t) (subject' : string) :
  differ_only_in_case subject' (StudentResponse.subject r) ->
  analyze (with_subject r subject') = analyze r /\
  (forall key, In key corpus_subjects ->
     differ_only_in_case (StudentResponse.subject r) key ->
     analyze (with_subject r subject') = analyze (with_subject r key) /\
     analyze (with_subject r subject')
     = try_except
         (score_against encode cosine_similarity (StudentResponse.response_text r)
            (add_keywords (flatten_refs (dict_get reference_answers key))
               (StudentResponse.expected_keywords r)))
         (fun _ => Ok (0.0%float, [])) /\
     analyze (with_subject r subject') <> Ok (0.5%float, [])).
Proof.
  intros H. apply lower_differ_only_in_case in H.
  assert (analyze (with_subject r subject') = analyze r) as Hsame.
  { unfold analyze_response, analyze_response_body, with_subject. simpl.
    rewrite H. reflexivity. }
  split; [exact Hsame|].
  intros key Hin Hk. apply lower_differ_only_in_case in Hk.
  pose proof corpus_subjects_lower as F. rewrite Forall_forall in F.
  destruct (F key Hin) as [Lk Nk].
  assert (dict_get reference_answers (lower (StudentResponse.subject r)) <> []) as Hne
    by (rewrite Hk, Lk; exact Nk).
  assert (all_refs_of r
          = add_keywords (flatten_refs (dict_get reference_answers key))
              (StudentResponse.expected_keywords r)) as Hrefs
    by (unfold all_refs_of; rewrite Hk, Lk; reflexivity).
  pose proof (analyze_response_known_subject r Hne) as Hscored.
  rewrite Hrefs in Hscored.
  split; [|split].
  - rewrite Hsame. unfold analyze_response, analyze_response_body, with_subject. simpl.
    rewrite Hk. reflexivity.
  - rewrite Hsame. exact Hscored.
  - rewrite Hsame, Hscored.
    destruct (score_against _ _ _ _) as [[score matches]|e] eqn:Hs; cbn [try_except].
    + intros [= -> ->].
      apply (score_against_matches _ _ _ _ Hs); reflexivity.
    + intros E.
      apply (f_equal (fun res => match res with
                                 | Ok (x, _) => (x =? 0)%float
                                 | Raise _ => false
                                 end)) in E.
      vm_compute in E. discriminate.
Qed.

(** X17: score and matches agree, whatever the precision in which the test
    [similarities[i] > 0.3] of line 145 compares.  When the scoring of a
    known subject succeeds, a score above [np.float32(0.3)] (which is above
    0.3) always comes with at least one match, and a score that is a number
    not above 0.3 comes with none.  Between the two thresholds the outcome
    depends on whether numpy compares a float32 similarity with 0.3 in
    float32 or in binary64, and nothing is said. *)
Theorem matches_follow_the_score (r : StudentResponse.t) (similarities : list float) :
  In (lower (StudentResponse.subject r)) corpus_subjects ->
  similarity_step encode cosine_similarity
    (StudentResponse.response_text r) (all_refs_of r) = Ok similarities ->
  List.length similarities = List.length (all_refs_of r) ->
  exists score matches,
    analyze r = Ok (score, matches) /\
    (py_gt score float32_03 = true -> matches <> []) /\
    (is_nan score = false -> py_gt score 0.3%float = false -> matches = []).
Proof.
  intros Hin Hstep Hlen.
  destruct (analyze_response_success r similarities Hin Hstep Hlen)
    as [Hne [score [scored [Ha [Hmax Hfst]]]]].
  destruct (np_max_spec similarities score Hmax) as [Hscore Hupper].
  exists score, (map snd scored). split; [exact Ha|]. split.
  - intros Hgt32 Hnil.
    assert (py_gt score 0.3%float = true) as Hgt.
    { unfold py_gt in *. apply (leb_ltb_trans _ float32_03); [reflexivity|exact Hgt32]. }
    destruct (top_pairs_head similarities Hne) as [best [rest [Ht [Hb Hall]]]].
    rewrite Forall_forall in Hall. specialize (Hall score Hscore).
    rewrite Forall_forall in Hupper. specialize (Hupper (fst best) Hb).
    assert (is_nan score = false) as Ns by (eapply gt_number; exact Hgt).
    assert ((fst best <=? score)%float = true) as Hle
      by (apply FloatOrder.np_le_leb; assumption).
    destruct (FloatOrder.leb_numbers _ _ Hle) as [Nb _].
    assert ((score <=? fst best)%float = true) as Hge
      by (apply FloatOrder.np_le_leb; assumption).
    assert (py_gt (fst best) 0.3%float = true) as Hbest
      by (unfold py_gt in *; eapply ltb_leb_trans; eassumption).
    rewrite Ht in Hfst. cbn [filter] in Hfst. rewrite Hbest in Hfst.
    destruct scored; [discriminate|discriminate].
  - intros Ns Hle.
    assert (filter (fun p => py_gt (fst p) 0.3%float) (top_pairs similarities) = [])
      as Hempty.
    { destruct (filter _ (top_pairs similarities)) as [|p rest] eqn:E; [reflexivity|].
      exfalso. assert (In p (p :: rest)) as Hp by (left; reflexivity).
      rewrite <- E in Hp. apply filter_In in Hp. destruct Hp as [Hp Hgt].
      destruct (top_pairs_spec similarities) as [_ [_ Hnth]].
      rewrite Forall_forall in Hnth. specialize (Hnth p Hp).
      apply nth_error_In in Hnth.
      rewrite Forall_forall in Hupper. specialize (Hupper _ Hnth).
      apply FloatOrder.np_le_leb in Hupper; [|exact Ns].
      unfold py_gt in *.
      rewrite (ltb_leb_trans _ _ _ Hgt Hupper) in Hle. discriminate. }
    rewrite Hempty in Hfst. destruct scored; [reflexivity|discriminate].
Qed.

End ScorerMore.

(** ** Export and the example run *)

Lemma encode_each_ok (encode : pyobj -> result unit) (items : list pyobj) :
  Forall (fun o => encode o = Ok tt) items -> encode_each encode items = Ok tt.
Proof.
  induction 1 as [|o items Ho _ IH]; simpl; [reflexivity|].
  rewrite Ho. simpl. exact IH.
Qed.

Section ExportFacts.

Variable strftime : datetime -> string.
Variable isoformat : datetime -> string.
Variable open_for_writing : string -> result unit.

#[local] Abbreviation hook := (convert_datetime isoformat).
#[local] Abbreviation export := (export_data strftime isoformat open_for_writing).

(** An alert is encoded without an exception: its time stamp is turned into
    a string by the hook. *)
Lemma alert_encodes (depth : nat) (a : EducatorAlert.t) :
  json_iterencode hook (S (S (S depth))) [] (asdict_alert a) = Ok tt.
Proof. reflexivity. Qed.

(** A feedback record is not: its reward type is a member of an
    enumeration, which the hook hands back unchanged. *)
Lemma feedback_does_not_encode (depth : nat) (f : Feedback.t) :
  json_iterencode hook (S (S (S depth))) [] (asdict_feedback f)
    = Raise (ValueError "Circular reference detected").
Proof.
  cbn [json_iterencode asdict_feedback map snd encode_each bind existsb
       convert_datetime same_object].
  destruct (Feedback.reward_type f); reflexivity.
Qed.

Lemma json_iterencode_list (default : pyobj -> pyobj) (depth : nat)
  (markers items : list pyobj) :
  json_iterencode default (S depth) markers (PyList items)
    = encode_each (json_iterencode default depth markers) items.
Proof. reflexivity. Qed.

Lemma json_iterencode_dict (default : pyobj -> pyobj) (depth : nat)
  (markers : list pyobj) (items : list (string * pyobj)) :
  json_iterencode default (S depth) markers (PyDict items)
    = encode_each (json_iterencode default depth markers) (map snd items).
Proof. reflexivity. Qed.

Lemma json_iterencode_payload (depth : nat) (now : datetime) (self : FeedbackGenerator) :
  json_iterencode hook (S (S (S (S (S depth))))) [] (export_payload isoformat now self) =
  match feedback_history self with
  | [] => Ok tt
  | _ :: _ => Raise (ValueError "Circular reference detected")
  end.
Proof.
  unfold export_payload. rewrite json_iterencode_dict.
  cbn [map snd encode_each]. rewrite !json_iterencode_list.
  destruct (feedback_history self) as [|f rest].
  - cbn [map encode_each bind].
    rewrite encode_each_ok; [reflexivity|].
    apply Forall_map. apply Forall_forall. intros a _. apply alert_encodes.
  - cbn [map encode_each]. rewrite feedback_does_not_encode. reflexivity.
Qed.

Lemma json_dump_payload (now : datetime) (self : FeedbackGenerator) :
  json_dump hook (export_payload isoformat now self) =
  match feedback_history self with
  | [] => Ok tt
  | _ :: _ => Raise (ValueError "Circular reference detected")
  end.
Proof. exact (json_iterencode_payload 995 now self). Qed.

(** X18: [export_data] cannot export a feedback record.  As soon as the
    history holds one record, and the file could be opened, the call raises
    [ValueError("Circular reference detected")]: [asdict] leaves the reward
    type as a member of [RewardType], which [json] cannot write and which the
    hook [convert_datetime] hands back unchanged. *)
Theorem export_data_raises_on_records (now : datetime) (filename : option string)
  (self : FeedbackGenerator) :
  feedback_history self <> [] ->
  open_for_writing (export_filename strftime now filename) = Ok tt ->
  export now filename self = Raise (ValueError "Circular reference detected").
Proof.
  intros Hne Hopen. unfold export_data. rewrite Hopen. cbn [bind].
  rewrite json_dump_payload. destruct (feedback_history self); [congruence|reflexivity].
Qed.

(** X19: with an empty history [export_data] succeeds whenever the file
    can be opened, whatever alerts there are, and returns the name of the
    file: the name it was given, or, when that is [None] or the empty string,
    a name made from the clock. *)
Theorem export_data_of_empty_history (now : datetime) (filename : option string)
  (self : FeedbackGenerator) :
  feedback_history self = [] ->
  open_for_writing (export_filename strftime now filename) = Ok tt ->
  export now filename self = Ok (export_filename strftime now filename) /\
  (forall name, name <> "" -> export_filename strftime now (Some name) = name) /\
  export_filename strftime now (Some "") = "feedback_data_" ++ strftime now ++ ".json" /\
  export_filename strftime now None = "feedback_data_" ++ strftime now ++ ".json".
Proof.
  intros He Hopen. split; [|split; [|split; reflexivity]].
  - unfold export_data. rewrite Hopen. cbn [bind].
    rewrite json_dump_payload, He. reflexivity.
  - intros [|c name] Hn; [congruence|reflexivity].
Qed.

End ExportFacts.

Section MainFacts.

Variable encode : list string -> result (list (list float)).
Variable cosine_similarity :
  list (list float) -> list (list float) -> result (list (list float)).
Variable strftime : datetime -> string.
Variable isoformat : datetime -> string.
Variable open_for_writing : string -> result unit.

#[local] Abbreviation reached := (reachable encode cosine_similarity strftime).
#[local] Abbreviation export := (export_data strftime isoformat open_for_writing).

(** X20: in a reachable generator the export works exactly as long as
    nothing has been recorded: once [generate_feedback] has run, every
    [export_data] whose file opens raises. *)
Theorem export_data_only_before_first_record (now : datetime)
  (filename : option string) (self : FeedbackGenerator) :
  reached self ->
  open_for_writing (export_filename strftime now filename) = Ok tt ->
  (feedback_history self = [] /\ educator_alerts self = [] /\
   export now filename self = Ok (export_filename strftime now filename)) \/
  (feedback_history self <> [] /\
   export now filename self = Raise (ValueError "Circular reference detected")).
Proof.
  intros R Hopen. unfold export_data. rewrite Hopen. cbn [bind].
  rewrite json_dump_payload.
  destruct R as [|t r self self' f R Hrec].
  - left. repeat split; reflexivity.
  - right.
    destruct (generate_feedback_inversion encode cosine_similarity strftime
                t r self self' f Hrec) as [-> _].
    destruct (feedback_history self); simpl; split; try discriminate; reflexivity.
Qed.

(** X21: the example run [main] never completes.  Whatever the embedding
    model answers, its three responses are recorded, the progress of
    "student_001" counts two responses and the dashboard two students and
    three responses; the export that follows then raises: the error of
    [open] when the file cannot be opened, and otherwise
    [ValueError("Circular reference detected")]. *)
Theorem main_ends_with_an_exception (clock : nat -> datetime) :
  exists feedback_gen report,
    run_script encode cosine_similarity strftime
      (combine [clock 3; clock 4; clock 5] (example_responses clock)) init
      = Ok feedback_gen /\
    get_student_progress isoformat "student_001" feedback_gen = Ok (ProgressOk report) /\
    pr_total_responses report = 2 /\
    total_students
      (class_overview (get_educator_dashboard isoformat (clock 6) feedback_gen)) = 2 /\
    total_responses
      (class_overview (get_educator_dashboard isoformat (clock 6) feedback_gen)) = 3 /\
    main encode cosine_similarity strftime isoformat open_for_writing clock =
      match open_for_writing ("feedback_data_" ++ strftime (clock 7) ++ ".json") with
      | Ok _ => Raise (ValueError "Circular reference detected")
      | Raise e => Raise e
      end.
Proof.
  unfold main, example_responses. cbn [combine run_script].
  repeat match goal with
  | |- context [generate_feedback _ _ _ ?now ?r ?st] =>
      let s := fresh "s" in let m := fresh "m" in let Ha := fresh "Ha" in
      let f := fresh "f" in let Hf := fresh "Hf" in let Hid := fresh "Hid" in
      destruct (analyze_response_total encode cosine_similarity r) as [s [m Ha]];
      destruct (generate_feedback_record encode cosine_similarity strftime
                  now r st s m Ha) as [f [Hf [_ [Hid _]]]];
      rewrite Hf; clear Hf Ha; cbn [bind feedback_history educator_alerts app]
  end.
  cbn [StudentResponse.student_id] in *.
  match goal with
  | |- context [Ok ?g = Ok _] => set (feedback_gen := g)
  end.
  assert (records_of "student_001" (feedback_history feedback_gen) = ([f] ++ [f1])%list)
    as Hmine.
  { unfold records_of, feedback_gen, init. cbn [feedback_history app filter].
    rewrite Hid, Hid0, Hid1. reflexivity. }
  destruct (get_student_progress_shape isoformat "student_001" feedback_gen [f] f1 Hmine)
    as [report [Hp [_ [Hn _]]]].
  exists feedback_gen, report.
  split; [reflexivity|]. split; [exact Hp|]. split; [exact Hn|].
  assert (map Feedback.student_id (feedback_history feedback_gen)
          = ["student_001"; "student_002"; "student_001"]) as Hids.
  { unfold feedback_gen, init. cbn [feedback_history app map]. rewrite Hid, Hid0, Hid1.
    reflexivity. }
  split; [|split].
  - unfold get_educator_dashboard. cbn [class_overview total_students].
    rewrite Hids. reflexivity.
  - unfold get_educator_dashboard. cbn [class_overview total_responses].
    rewrite <- (length_map Feedback.student_id), Hids. reflexivity.
  - rewrite Hp. cbn [bind]. unfold export_data. cbn [export_filename].
    destruct (open_for_writing _) as [[]|e]; cbn [bind]; [|reflexivity].
    rewrite json_dump_payload. reflexivity.
Qed.

End MainFacts.

(** ** Further worked examples *)

Lemma struggling_state_reached :
  reachable (encode_with embed_low) sklearn_cosine_similarity strftime_decimal
    struggling_state.
Proof.
  apply (run_script_reachable (encode_with embed_low) sklearn_cosine_similarity
           strftime_decimal script_low init struggling_state).
  - constructor.
  - vm_compute. reflexivity.
Qed.

Lemma recorded_once_reached :
  reachable (encode_with embed_same) sklearn_cosine_similarity strftime_decimal
    recorded_once.
Proof.
  eapply (reachable_record _ _ _ 1%Z response_low init); [constructor|].
  vm_compute. reflexivity.
Qed.

(** [stored_records_consistent] on the state after five records scored 0.2:
    each is a bronze record of 10 points. *)
Lemma stored_records_consistent_witness :
  reachable (encode_with embed_low) sklearn_cosine_similarity strftime_decimal
    struggling_state /\
  map Feedback.points_earned (feedback_history struggling_state)
    = [10; 10; 10; 10; 10]%Z /\
  Forall (fun f => (Feedback.reward_type f, Feedback.points_earned f)
                   = determine_reward (Feedback.similarity_score f) /\
                   (10 <= Feedback.points_earned f <= 100)%Z)
    (feedback_history struggling_state).
Proof.
  split; [exact struggling_state_reached|]. split; [reflexivity|].
  apply (stored_records_consistent (encode_with embed_low) sklearn_cosine_similarity
           strftime_decimal struggling_state struggling_state_reached).
Defined.

(** [stored_alerts_well_formed] on the same state: eight alerts for five
    records. *)
Lemma stored_alerts_well_formed_witness :
  reachable (encode_with embed_low) sklearn_cosine_similarity strftime_decimal
    struggling_state /\
  List.length (educator_alerts struggling_state) = 8 /\
  List.length (feedback_history struggling_state) = 5 /\
  Forall (fun alert =>
            well_formed_alert alert /\
            In (EducatorAlert.student_id alert)
               (map Feedback.student_id (feedback_history struggling_state)))
    (educator_alerts struggling_state) /\
  List.length (educator_alerts struggling_state)
    <= 2 * List.length (feedback_history struggling_state).
Proof.
  split; [exact struggling_state_reached|]. split; [reflexivity|]. split; [reflexivity|].
  apply (stored_alerts_well_formed (encode_with embed_low) sklearn_cosine_similarity
           strftime_decimal struggling_state struggling_state_reached).
Defined.

(** [total_points_between_10_and_100_per_response] on the same state: five
    responses, 50 points. *)
Lemma total_points_between_10_and_100_per_response_witness :
  reachable (encode_with embed_low) sklearn_cosine_similarity strftime_decimal
    struggling_state /\
  exists report,
    get_student_progress strftime_decimal "student_002" struggling_state
      = Ok (ProgressOk report) /\
    pr_total_responses report = 5 /\
    pr_total_points report = 50%Z /\
    (10 * Z.of_nat (pr_total_responses report)
     <= pr_total_points report
     <= 100 * Z.of_nat (pr_total_responses report))%Z.
Proof.
  split; [exact struggling_state_reached|].
  assert (exists report,
             get_student_progress strftime_decimal "student_002" struggling_state
               = Ok (ProgressOk report) /\
             pr_total_responses report = 5 /\ pr_total_points report = 50%Z)
    as [report [Hp [Hn Ht]]]
    by (eexists; split; [vm_compute; reflexivity|split; reflexivity]).
  exists report. split; [exact Hp|]. split; [exact Hn|]. split; [exact Ht|].
  apply (total_points_between_10_and_100_per_response
           (encode_with embed_low) sklearn_cosine_similarity strftime_decimal
           strftime_decimal "student_002" struggling_state report
           struggling_state_reached Hp).
Defined.

(** [matches_follow_the_score] on the graded mathematics response: the score
    0.96 is above 0.3 in either precision and three matches are listed. *)
Lemma matches_follow_the_score_witness :
  In (lower (StudentResponse.subject response_math)) corpus_subjects /\
  similarity_step (encode_with embed_graded) sklearn_cosine_similarity
    (StudentResponse.response_text response_math) (all_refs_of response_math)
    = Ok graded_similarities /\
  List.length graded_similarities = List.length (all_refs_of response_math) /\
  exists score matches,
    analyze_response (encode_with embed_graded) sklearn_cosine_similarity response_math
      = Ok (score, matches) /\
    score = 0.96%float /\
    py_gt score float32_03 = true /\
    List.length matches = 3 /\
    (py_gt score float32_03 = true -> matches <> []) /\
    (is_nan score = false -> py_gt score 0.3%float = false -> matches = []).
Proof.
  assert (In (lower (StudentResponse.subject response_math)) corpus_subjects) as H1
    by (simpl; auto).
  assert (similarity_step (encode_with embed_graded) sklearn_cosine_similarity
            (StudentResponse.response_text response_math) (all_refs_of response_math)
          = Ok graded_similarities) as H2 by (vm_compute; reflexivity).
  assert (List.length graded_similarities = List.length (all_refs_of response_math))
    as H3 by reflexivity.
  split; [exact H1|]. split; [exact H2|]. split; [exact H3|].
  destruct (matches_follow_the_score (encode_with embed_graded)
              sklearn_cosine_similarity response_math graded_similarities H1 H2 H3)
    as [score [matches [Ha [Hpos Hneg]]]].
  exists score, matches. split; [exact Ha|].
  assert (analyze_response (encode_with embed_graded) sklearn_cosine_similarity
            response_math
          = Ok (0.96%float,
                [ "inverse operations";
                  "To solve linear equations, isolate the variable by performing inverse operations on both sides";
                  "Functions represent relationships between input and output values" ]))
    as Hv by (vm_compute; reflexivity).
  rewrite Hv in Ha. injection Ha as <- <-.
  split; [reflexivity|]. split; [reflexivity|]. split; [reflexivity|]. split; assumption.
Defined.

(** [analyze_response_case_insensitive] on the subjects "MatheMATICS" and
    "mathematics": the same result, which is the scoring against the
    references of "mathematics" and not the default. *)
Lemma analyze_response_case_insensitive_witness :
  differ_only_in_case "MatheMATICS" (StudentResponse.subject response_math) /\
  analyze_response (encode_with embed_graded) sklearn_cosine_similarity
    (with_subject response_math "MatheMATICS")
  = analyze_response (encode_with embed_graded) sklearn_cosine_similarity response_math /\
  analyze_response (encode_with embed_graded) sklearn_cosine_similarity
    (with_subject response_math "MatheMATICS")
  = try_except
      (score_against (encode_with embed_graded) sklearn_cosine_similarity
         (StudentResponse.response_text response_math)
         (add_keywords (flatten_refs (dict_get reference_answers "mathematics"))
            (StudentResponse.expected_keywords response_math)))
      (fun _ => Ok (0.0%float, [])) /\
  analyze_response (encode_with embed_graded) sklearn_cosine_similarity
    (with_subject response_math "MatheMATICS") <> Ok (0.5%float, []).
Proof.
  assert (differ_only_in_case "MatheMATICS" (StudentResponse.subject response_math)) as H
    by (simpl; repeat split; same_letter_tac).
  split; [exact H|].
  destruct (analyze_response_case_insensitive (encode_with embed_graded)
              sklearn_cosine_similarity response_math "MatheMATICS" H) as [E K].
  split; [exact E|].
  destruct (K "mathematics") as [_ [Hscored Hdefault]].
  - simpl. auto.
  - simpl. repeat split; left; reflexivity.
  - split; [exact Hscored|exact Hdefault].
Defined.

(** Counterexample to C10 as stated: "SCIENCE" and the spelling whose first
    letter is U+017F differ only in letter case (each is the upper case of
    both), yet the first is scored against the references of "science" and
    the second, which [lower] leaves as it is, gets the unknown-subject
    default. *)
Lemma long_s_subject_gets_the_default :
  upper (StudentResponse.subject response_science_long_s)
    = StudentResponse.subject response_science_upper /\
  upper (StudentResponse.subject response_science_upper)
    = StudentResponse.subject response_science_upper /\
  lower (StudentResponse.subject response_science_upper) = "science" /\
  lower (StudentResponse.subject response_science_long_s)
    = StudentResponse.subject response_science_long_s /\
  response_science_long_s
    = with_subject response_science_upper (StudentResponse.subject response_science_long_s) /\
  (exists matches,
     analyze_response (encode_with embed_same) sklearn_cosine_similarity
       response_science_upper = Ok (1%float, matches) /\
     List.length matches = 3) /\
  analyze_response (encode_with embed_same) sklearn_cosine_similarity
    response_science_long_s = Ok (0.5%float, []) /\
  analyze_response (encode_with embed_same) sklearn_cosine_similarity
    response_science_upper
  <> analyze_response (encode_with embed_same) sklearn_cosine_similarity
       response_science_long_s.
Proof.
  split; [reflexivity|]. split; [reflexivity|]. split; [reflexivity|].
  split; [reflexivity|]. split; [reflexivity|].
  split; [eexists; split; [vm_compute; reflexivity|reflexivity]|].
  split; [vm_compute; reflexivity|].
  intros E.
  apply (f_equal (fun res => match res with
                             | Ok (x, _) => (x =? 1)%float
                             | Raise _ => false
                             end)) in E.
  vm_compute in E. discriminate.
Qed.

(** [export_data_raises_on_records] on a generator with one record. *)
Lemma export_data_raises_on_records_witness :
  feedback_history recorded_once <> [] /\
  open_always (export_filename strftime_decimal 7%Z (Some "demo_export.json")) = Ok tt /\
  export_data strftime_decimal strftime_decimal open_always 7%Z
    (Some "demo_export.json") recorded_once
    = Raise (ValueError "Circular reference detected").
Proof.
  assert (feedback_history recorded_once <> []) as H
    by (intros E; vm_compute in E; discriminate).
  split; [exact H|]. split; [reflexivity|].
  apply (export_data_raises_on_records strftime_decimal strftime_decimal open_always
           7%Z (Some "demo_export.json") recorded_once H). reflexivity.
Defined.

(** [export_data_of_empty_history] on a generator that holds an alert and
    no record, without a file name. *)
Lemma export_data_of_empty_history_witness :
  feedback_history alert_only_state = [] /\
  open_always (export_filename strftime_decimal 7%Z None) = Ok tt /\
  export_data strftime_decimal strftime_decimal open_always 7%Z None alert_only_state
    = Ok "feedback_data_7.json".
Proof.
  split; [reflexivity|]. split; [reflexivity|].
  apply (export_data_of_empty_history strftime_decimal strftime_decimal open_always
           7%Z None alert_only_state); reflexivity.
Defined.

(** [export_data_only_before_first_record] on the generator with one
    record. *)
Lemma export_data_only_before_first_record_witness :
  reachable (encode_with embed_same) sklearn_cosine_similarity strftime_decimal
    recorded_once /\
  open_always (export_filename strftime_decimal 7%Z None) = Ok tt /\
  ((feedback_history recorded_once = [] /\ educator_alerts recorded_once = [] /\
    export_data strftime_decimal strftime_decimal open_always 7%Z None recorded_once
      = Ok (export_filename strftime_decimal 7%Z None)) \/
   (feedback_history recorded_once <> [] /\
    export_data strftime_decimal strftime_decimal open_always 7%Z None recorded_once
      = Raise (ValueError "Circular reference detected"))).
Proof.
  split; [exact recorded_once_reached|]. split; [reflexivity|].
  apply (export_data_only_before_first_record (encode_with embed_same)
           sklearn_cosine_similarity strftime_decimal strftime_decimal open_always
           7%Z None recorded_once recorded_once_reached). reflexivity.
Defined.

(** The example run with the graded embedding: the export fails. *)
Example main_with_graded_embedding :
  main (encode_with embed_graded) sklearn_cosine_similarity strftime_decimal
    strftime_decimal open_always (fun k => Z.of_nat k)
  = Raise (ValueError "Circular reference detected").
Proof. vm_compute. reflexivity. Qed.
